(** * The IRAS callback receiver of [src/main.py], embedded in Rocq

    The development follows the layout of the Python module: the built-ins
    of the interpreter that the code relies on ([Py]), the regular
    expressions it matches with ([Re]), the validator class, the in-memory
    log store, the five callback endpoints and the log endpoints, then the
    properties.

    Conventions of the embedding.
    - A decoded JSON document is a [pyval]; a JSON object is a finite map
      from strings to values.
    - A [str] is a Rocq [string], one character per code point; case
      mappings and character classes are those of the ASCII range, where
      CPython and the definitions below agree.
    - A Python [float] is a binary64 number, Rocq's primitive [float].
    - A function that can raise returns a [result]; the handlers, which
      also mutate the module-level list [callback_logs], run in the monad
      [M] that threads that list and keeps it as it is when an exception
      propagates, as Python does.
    - Calls to [logger] only write to the process log and are left out,
      except where evaluating their argument can raise. *)

From Stdlib Require Import ZArith String Ascii List Bool Lia.
From Stdlib Require PrimFloat FloatOps SpecFloat.
From stdpp Require Import gmap strings list pretty.

Local Open Scope string_scope.
Local Open Scope Z_scope.

(* ================================================================== *)
(** ** Python values, exceptions and built-ins                          *)
(* ================================================================== *)

Module Py.

(** What [json.loads] can produce. *)
Inductive pyval : Type :=
| PNone
| PBool (b : bool)
| PInt (z : Z)
| PFloat (f : PrimFloat.float)
| PStr (s : string)
| PList (l : list pyval)
| PDict (d : gmap string pyval).

(** The exceptions that occur in the module.  [ValidationError] is the
    class the module declares (message and optional field); the others are
    built-in and never reach a response with their text. *)
Inductive exn : Type :=
| ValidationError (message : string) (field : option string)
| TypeError
| ValueError
| AttributeError
| KeyError
| OverflowError.

Inductive result (A : Type) : Type :=
| Ok (a : A)
| Raise (e : exn).
Arguments Ok {A} a.
Arguments Raise {A} e.

Definition bind {A B} (r : result A) (k : A -> result B) : result B :=
  match r with
  | Ok a => k a
  | Raise e => Raise e
  end.

(** [isinstance(e, ValidationError)] *)
Definition is_validation_error (e : exn) : bool :=
  match e with ValidationError _ _ => true | _ => false end.

(** [isinstance(e, (ValueError, TypeError))] *)
Definition is_value_or_type_error (e : exn) : bool :=
  match e with ValueError | TypeError => true | _ => false end.

(** [str(e)] for the module's own exception. *)
Definition exn_str (e : exn) : string :=
  match e with ValidationError m _ => m | _ => "" end.

(** Truth value testing: [bool(v)]. *)
Definition truthy (v : pyval) : bool :=
  match v with
  | PNone => false
  | PBool b => b
  | PInt z => negb (z =? 0)
  | PFloat f => negb (PrimFloat.eqb f PrimFloat.zero)
  | PStr s => negb (String.eqb s "")
  | PList l => match l with [] => false | _ => true end
  | PDict d => match map_to_list d with [] => false | _ => true end
  end.

(** [d.get(k)], with [None] as the default. *)
Definition dict_get (d : gmap string pyval) (k : string) : pyval :=
  default PNone (d !! k).

(** [d.get(k, dflt)] *)
Definition dict_get_default (d : gmap string pyval) (k : string) (dflt : pyval) : pyval :=
  default dflt (d !! k).

(** [d[k]] *)
Definition getitem (d : gmap string pyval) (k : string) : result pyval :=
  match d !! k with
  | Some v => Ok v
  | None => Raise KeyError
  end.

(** *** Characters and strings

    A [str] is a [string] whose characters are the code points of the
    Python characters: the model covers the strings of code points below
    256 (Latin-1), and the functions below are the built-ins on them. *)

Definition is_digit (c : ascii) : bool :=
  let n := nat_of_ascii c in (48 <=? n)%nat && (n <=? 57)%nat.

Definition is_upper_letter (c : ascii) : bool :=
  let n := nat_of_ascii c in (65 <=? n)%nat && (n <=? 90)%nat.

Definition is_lower_letter (c : ascii) : bool :=
  let n := nat_of_ascii c in (97 <=? n)%nat && (n <=? 122)%nat.

(** The characters [int] skips around a literal: tab, newline, vertical
    tab, form feed, carriage return, space, U+0085 and U+00A0. *)
Definition is_space (c : ascii) : bool :=
  let n := nat_of_ascii c in
  ((9 <=? n)%nat && (n <=? 13)%nat) || (n =? 32)%nat || (n =? 133)%nat || (n =? 160)%nat.

(** [c.upper()].  U+00DF gives "SS"; the letters U+00E0 to U+00FE go to
    U+00C0 to U+00DE; U+00B5 and U+00FF give U+039C and U+0178, which are
    no characters of the model: [None]. *)
Definition upper_char (c : ascii) : option string :=
  let n := nat_of_ascii c in
  if is_lower_letter c then Some (String (ascii_of_nat (n - 32)) EmptyString)
  else if (n =? 223)%nat then Some "SS"
  else if (n =? 181)%nat || (n =? 255)%nat then None
  else if (224 <=? n)%nat && (n <=? 254)%nat && negb (n =? 247)%nat
  then Some (String (ascii_of_nat (n - 32)) EmptyString)
  else Some (String c EmptyString).

(** [c.lower()]: the letters U+00C0 to U+00DE go to U+00E0 to U+00FE. *)
Definition lower_char (c : ascii) : ascii :=
  let n := nat_of_ascii c in
  if is_upper_letter c
     || ((192 <=? n)%nat && (n <=? 222)%nat && negb (n =? 215)%nat)
  then ascii_of_nat (n + 32) else c.

(** [s.upper()], [None] when it holds a character above U+00FF, and
    [s.lower()] *)
Fixpoint upper (s : string) : option string :=
  match s with
  | EmptyString => Some EmptyString
  | String c s' =>
      match upper_char c, upper s' with
      | Some u, Some us => Some (u +:+ us)
      | _, _ => None
      end
  end.

Fixpoint lower (s : string) : string :=
  match s with
  | EmptyString => EmptyString
  | String c s' => String (lower_char c) (lower s')
  end.

(** [s[:n]] and [s[n:]] for [n >= 0] *)
Fixpoint str_take (n : nat) (s : string) : string :=
  match n, s with
  | S n', String c s' => String c (str_take n' s')
  | _, _ => EmptyString
  end.

Fixpoint str_drop (n : nat) (s : string) : string :=
  match n, s with
  | S n', String _ s' => str_drop n' s'
  | _, _ => s
  end.

(** [sep.join(l)] on a list of [str] *)
Definition join (sep : string) (l : list string) : string := String.concat sep l.

(** [x in l] on a list of [str] *)
Definition str_in (x : string) (l : list string) : bool :=
  existsb (String.eqb x) l.

(** *** [int(s)] on a [str], base ten

    Optional blanks, an optional sign, decimal digits with single
    underscores allowed between digits, optional blanks, end of string;
    a literal of more than 4300 digits is refused
    ([sys.int_info.default_max_str_digits]).  [None] stands for
    [ValueError]. *)

Definition digit_val (c : ascii) : Z := Z.of_nat (nat_of_ascii c - 48).

Fixpoint skip_spaces (s : list ascii) : list ascii :=
  match s with
  | c :: s' => if is_space c then skip_spaces s' else s
  | [] => []
  end.

(** After at least one digit: [acc] is the value read so far. *)
Fixpoint int_digits (acc : Z) (s : list ascii) : option Z :=
  match s with
  | [] => Some acc
  | c :: s' =>
      if is_digit c then int_digits (10 * acc + digit_val c) s'
      else if Ascii.eqb c "_" then
        match s' with
        | d :: s'' =>
            if is_digit d then int_digits (10 * acc + digit_val d) s'' else None
        | [] => None
        end
      else match skip_spaces s with [] => Some acc | _ => None end
  end.

Definition int_unsigned (s : list ascii) : option Z :=
  match s with
  | c :: s' => if is_digit c then int_digits (digit_val c) s' else None
  | [] => None
  end.

(** The value of the literal, whatever its length. *)
Definition int_literal (s : string) : option Z :=
  match skip_spaces (list_ascii_of_string s) with
  | "+"%char :: s' => int_unsigned s'
  | "-"%char :: s' => Z.opp <$> int_unsigned s'
  | s' => int_unsigned s'
  end.

Definition int_max_str_digits : Z := 4300.

(** The number of digits of a literal: all the digits of the string. *)
Definition count_digits (s : string) : Z :=
  Z.of_nat (List.length (List.filter is_digit (list_ascii_of_string s))).

Definition int_of_str (s : string) : option Z :=
  match int_literal s with
  | Some z => if int_max_str_digits <? count_digits s then None else Some z
  | None => None
  end.

(** *** [int(v)] *)

(** The integer part of a finite binary64 number, rounded toward zero. *)
Definition float_trunc (f : PrimFloat.float) : result Z :=
  match FloatOps.Prim2SF f with
  | SpecFloat.S754_zero _ => Ok 0
  | SpecFloat.S754_finite sg m e =>
      let a := match e with
               | Z0 => Zpos m
               | Zpos p => Zpos m * 2 ^ Zpos p
               | Zneg p => Zpos m / 2 ^ Zpos p
               end in
      Ok (if sg then - a else a)
  | SpecFloat.S754_infinity _ => Raise OverflowError
  | SpecFloat.S754_nan => Raise ValueError
  end.

Definition int (v : pyval) : result Z :=
  match v with
  | PNone => Raise TypeError
  | PBool b => Ok (if b then 1 else 0)
  | PInt z => Ok z
  | PFloat f => float_trunc f
  | PStr s => match int_of_str s with Some z => Ok z | None => Raise ValueError end
  | PList _ | PDict _ => Raise TypeError
  end.

(** *** [float(v)]

    The decimal-to-binary64 parser of [float(s)] is a parameter of the
    model: [float_of_str s] is [None] when CPython raises [ValueError]. *)

Definition float_of_int (z : Z) : result PrimFloat.float :=
  match SpecFloat.binary_normalize FloatOps.prec FloatOps.emax z 0 false with
  | SpecFloat.S754_infinity _ => Raise OverflowError
  | sf => Ok (FloatOps.SF2Prim sf)
  end.

Definition float (float_of_str : string -> option PrimFloat.float) (v : pyval)
  : result PrimFloat.float :=
  match v with
  | PNone => Raise TypeError
  | PBool b => Ok (if b then PrimFloat.one else PrimFloat.zero)
  | PInt z => float_of_int z
  | PFloat f => Ok f
  | PStr s => match float_of_str s with Some f => Ok f | None => Raise ValueError end
  | PList _ | PDict _ => Raise TypeError
  end.

(** [f < 0] *)
Definition float_is_negative (f : PrimFloat.float) : bool :=
  PrimFloat.ltb f PrimFloat.zero.

(** *** [sep.join(v)] on an arbitrary value

    A [str] is iterated by character, a list must hold only [str], a
    dict is iterated by key; anything else is not iterable. *)
Fixpoint all_str (l : list pyval) : option (list string) :=
  match l with
  | [] => Some []
  | PStr s :: l' => cons s <$> all_str l'
  | _ :: _ => None
  end.

Definition join_val (sep : string) (v : pyval) : result string :=
  match v with
  | PStr s => Ok (join sep (map (fun c => String c EmptyString) (list_ascii_of_string s)))
  | PList l => match all_str l with Some ss => Ok (join sep ss) | None => Raise TypeError end
  | PDict d => Ok (join sep (map fst (map_to_list d)))
  | PNone | PBool _ | PInt _ | PFloat _ => Raise TypeError
  end.

(** *** Slicing: [l[start:]] *)
Definition slice_from {A} (start : Z) (l : list A) : list A :=
  let len := Z.of_nat (List.length l) in
  let i := if start <? 0 then Z.max (start + len) 0 else Z.min start len in
  drop (Z.to_nat i) l.

(** [v.get(k)], [v.get(k, dflt)] and [v[k]] on an arbitrary value: only a
    dict has [get]; the other JSON values are either not subscriptable or
    not indexable by a [str]. *)
Definition get (v : pyval) (k : string) : result pyval :=
  match v with
  | PDict d => Ok (dict_get d k)
  | _ => Raise AttributeError
  end.

Definition get_default (v : pyval) (k : string) (dflt : pyval) : result pyval :=
  match v with
  | PDict d => Ok (dict_get_default d k dflt)
  | _ => Raise AttributeError
  end.

Definition subscript (v : pyval) (k : string) : result pyval :=
  match v with
  | PDict d => getitem d k
  | _ => Raise TypeError
  end.

#[export] Instance result_ret : MRet result := @Ok.
#[export] Instance result_bind : MBind result := fun A B k r => bind r k.

End Py.
Import Py.

(* ================================================================== *)
(** ** Regular expressions: the fragment of [re] the module uses        *)
(* ================================================================== *)

Module Re.

Inductive regex : Type :=
| Bol                          (* ^ *)
| Eol                          (* $ *)
| Class (p : ascii -> bool)    (* \d, [A-Z] *)
| Rep (n : nat) (r : regex)    (* r{n} *)
| Seq (r1 r2 : regex)
| Alt (r1 r2 : regex).         (* r1|r2 *)

(** Backtracking matcher in continuation-passing style.  [pos] is the
    offset of the rest [s] in the subject.  Without flags, [^] matches at
    offset 0 only, and [$] matches at the end of the subject and also just
    before a newline that ends the subject. *)
Fixpoint matches (r : regex) (pos : nat) (s : list ascii)
    (k : nat -> list ascii -> bool) : bool :=
  match r with
  | Bol => (pos =? 0)%nat && k pos s
  | Eol =>
      match s with
      | [] => k pos s
      | [c] => Ascii.eqb c "010" && k pos s
      | _ => false
      end
  | Class p =>
      match s with
      | c :: s' => p c && k (S pos) s'
      | [] => false
      end
  | Rep n r' =>
      (fix go (n : nat) (pos : nat) (s : list ascii) : bool :=
         match n with
         | O => k pos s
         | S n' => matches r' pos s (go n')
         end) n pos s
  | Seq r1 r2 => matches r1 pos s (fun pos' s' => matches r2 pos' s' k)
  | Alt r1 r2 => matches r1 pos s k || matches r2 pos s k
  end.

(** [re.match(r, s)] is not [None]: [r] matches a prefix of [s]. *)
Definition re_match (r : regex) (s : string) : bool :=
  matches r 0 (list_ascii_of_string s) (fun _ _ => true).

Definition digit : regex := Class is_digit.      (* \d *)
Definition A_Z : regex := Class is_upper_letter.  (* [A-Z] *)

End Re.

(* ================================================================== *)
(** ** Data validation: class [CallbackValidator]                       *)
(* ================================================================== *)

Definition allowed_statuses : list string :=
  ["SUCCESS"; "FAILED"; "PROCESSING"; "PENDING"; "REJECTED"; "CANCELLED"].

(** [r'^\d{8}[A-Z]$|^\d{9}[A-Z]$'] *)
Definition uen_pattern : Re.regex :=
  Re.Alt (Re.Seq Re.Bol (Re.Seq (Re.Rep 8 Re.digit) (Re.Seq Re.A_Z Re.Eol)))
         (Re.Seq Re.Bol (Re.Seq (Re.Rep 9 Re.digit) (Re.Seq Re.A_Z Re.Eol))).

(** [r'^\d{6}$'] *)
Definition tax_period_pattern : Re.regex :=
  Re.Seq Re.Bol (Re.Seq (Re.Rep 6 Re.digit) Re.Eol).

(** [missing_fields = [field for field in required_fields if not data.get(field)]] *)
Fixpoint missing_fields (data : pyval) (required_fields : list string)
  : result (list string) :=
  match required_fields with
  | [] => Ok []
  | field :: rest =>
      v ← get data field;
      ms ← missing_fields data rest;
      Ok (if truthy v then ms else field :: ms)
  end.

Definition validate_required_fields (data : pyval) (required_fields : list string)
  : result unit :=
  missing ← missing_fields data required_fields;
  match missing with
  | [] => Ok tt
  | _ => Raise (ValidationError ("Missing required fields: " +:+ join ", " missing) None)
  end.

Definition validate_submission_status (status : pyval) : result string :=
  if negb (truthy status) then
    Raise (ValidationError "submissionStatus is required" None)
  else
    match status with
    | PStr s =>
        match upper s with
        | Some status_upper =>
            if negb (str_in status_upper allowed_statuses) then
              Raise (ValidationError
                       ("Invalid status. Must be one of: " +:+ join ", " allowed_statuses) None)
            else Ok status_upper
        | None =>
            (* [status_upper] holds a character above U+00FF: it is not in
               the list *)
            Raise (ValidationError
                     ("Invalid status. Must be one of: " +:+ join ", " allowed_statuses) None)
        end
    | _ => Raise AttributeError
    end.

Definition validate_uen (uen : pyval) : result string :=
  if negb (truthy uen) then
    Raise (ValidationError "companyUEN is required" None)
  else
    match uen with
    | PStr s =>
        if negb (Re.re_match uen_pattern s) then
          Raise (ValidationError
                   "Invalid UEN format. Expected format: 12345678A or 123456789A" None)
        else Ok s
    | _ => Raise TypeError
    end.

Definition validate_form_type (form_type : pyval) : result string :=
  if negb (truthy form_type) then
    Raise (ValidationError "formType is required" None)
  else
    match form_type with
    | PStr s =>
        match upper s with
        | Some form_type_upper =>
            if negb (str_in form_type_upper ["F5"; "F8"]) then
              Raise (ValidationError "Invalid formType. Must be F5 or F8" None)
            else Ok form_type_upper
        | None =>
            (* [form_type_upper] holds a character above U+00FF *)
            Raise (ValidationError "Invalid formType. Must be F5 or F8" None)
        end
    | _ => Raise AttributeError
    end.

(** [int(s)] inside the [try ... except ValueError] of [validate_tax_period] *)
Definition tax_period_int (s : string) : result Z :=
  match int_of_str s with
  | Some z => Ok z
  | None => Raise (ValidationError "Invalid taxPeriod format" None)
  end.

Definition validate_tax_period (tax_period : pyval) : result string :=
  if negb (truthy tax_period) then
    Raise (ValidationError "taxPeriod is required" None)
  else
    match tax_period with
    | PStr s =>
        if negb (Re.re_match tax_period_pattern s) then
          Raise (ValidationError
                   "Invalid taxPeriod format. Expected format: YYYYMM (e.g., 202412)" None)
        else
          year ← tax_period_int (str_take 4 s);
          month ← tax_period_int (str_drop 4 s);
          if (year <? 2000) || (year >? 2100) then
            Raise (ValidationError "Invalid year in taxPeriod" None)
          else if (month <? 1) || (month >? 12) then
            Raise (ValidationError "Invalid month in taxPeriod" None)
          else Ok s
    | _ => Raise TypeError
    end.

(* ================================================================== *)
(** ** The request context and the log store                            *)
(* ================================================================== *)

(** What the handlers read from Flask's [request]. [req_get_json] is the
    outcome of [request.get_json()]: the decoded body, or the text of the
    exception it raised.  The headers are read in two ways:
    [req_headers_get] is [request.headers.get], the lookup that Werkzeug
    makes without regard to the case of the name, and [req_headers] is
    [dict(request.headers)], with the names as Werkzeug spells them
    (each word capitalised: X-Real-Ip). *)
Record request : Type := {
  req_is_json : bool;
  req_get_json : pyval + string;
  req_args : gmap string string;
  req_headers_get : string -> option string;
  req_headers : gmap string string;
  req_remote_addr : option string;
  req_method : string;
}.

(** The values drawn from outside while one request is served:
    [str(uuid.uuid4())] and [datetime.now().isoformat()], by call site. *)
Record oracle : Type := {
  uuid4_log : string;
  now_log : string;
  now_response : string;
  uuid4_error : string;
  now_error : string;
}.

(** One element of [callback_logs]: the dict built in [log_callback]. *)
Record log_entry : Type := {
  requestId : string;
  timestamp : string;
  endpoint : string;
  callback_data : gmap string pyval;
  headers : gmap string string;
  client_ip : string;
  method : string;
  status : pyval;
}.

Definition MAX_LOGS : nat := 200.

(** Computations of the handlers: they may raise, and they act on
    [callback_logs]; a raise leaves the list as it was at that point. *)
Definition M (A : Type) : Type := list log_entry -> result A * list log_entry.

#[export] Instance M_ret : MRet M := fun A a logs => (Ok a, logs).
#[export] Instance M_bind : MBind M := fun A B k m logs =>
  match m logs with
  | (Ok a, logs') => k a logs'
  | (Raise e, logs') => (Raise e, logs')
  end.

Definition lift {A} (r : result A) : M A := fun logs => (r, logs).

(** A JSON body: the response dict and the HTTP status code. *)
Definition response : Type := gmap string pyval * Z.

Section Server.

(** [float(s)] on a [str] ([None]: [ValueError]) and the text an f-string
    gives for an arbitrary value are left to the interpreter. *)
Variable float_of_str : string -> option PrimFloat.float.
Variable format : pyval -> string.

Variable req : request.
Variable now : oracle.

(** *** Utility functions *)

(** [s.split(',')[0]] *)
Fixpoint before_comma (s : list ascii) : list ascii :=
  match s with
  | [] => []
  | c :: s' => if Ascii.eqb c "," then [] else c :: before_comma s'
  end.

(** [str.isspace]: the characters [strip] removes, which are those of
    [is_space] and U+001C to U+001F *)
Definition is_space_str (c : ascii) : bool :=
  is_space c || ((28 <=? nat_of_ascii c)%nat && (nat_of_ascii c <=? 31)%nat).

Fixpoint lstrip (s : list ascii) : list ascii :=
  match s with
  | c :: s' => if is_space_str c then lstrip s' else s
  | [] => []
  end.

(** [s.strip()] *)
Definition strip (s : list ascii) : list ascii := rev (lstrip (rev (lstrip s))).

(** [request.headers.get(name)] where the code tests it for truth *)
Definition header_set (name : string) : option string :=
  match req_headers_get req name with
  | Some v => if String.eqb v "" then None else Some v
  | None => None
  end.

Definition get_client_ip : string :=
  match header_set "X-Forwarded-For" with
  | Some v => string_of_list_ascii (strip (before_comma (list_ascii_of_string v)))
  | None =>
      match header_set "X-Real-IP" with
      | Some v => v
      | None =>
          match req_remote_addr req with
          | Some a => if String.eqb a "" then "unknown" else a
          | None => "unknown"
          end
      end
  end.

(** The dict [log_entry] that [log_callback] builds. *)
Definition make_log_entry (endpoint : string) (callback_data : gmap string pyval)
  : log_entry :=
  {| requestId := str_take 8 (uuid4_log now);
     timestamp := now_log now;
     endpoint := endpoint;
     callback_data := callback_data;
     headers := req_headers req;
     client_ip := get_client_ip;
     method := req_method req;
     status := dict_get_default callback_data "submissionStatus" (PStr "UNKNOWN") |}.

Definition log_callback (endpoint : string) (callback_data : gmap string pyval) : M string :=
  fun callback_logs =>
    let request_id := str_take 8 (uuid4_log now) in
    let log_entry := make_log_entry endpoint callback_data in
    let callback_logs := (callback_logs ++ [log_entry])%list in
    let callback_logs :=
      if (MAX_LOGS <? List.length callback_logs)%nat
      then tail callback_logs            (* pop(0) *)
      else callback_logs in
    (Ok request_id, callback_logs).

Definition create_success_response (message : string) (submission_id : pyval)
    (request_id : string) : gmap string pyval :=
  {[ "status" := PStr "received";
     "message" := PStr message;
     "submissionId" := submission_id;
     "timestamp" := PStr (now_response now);
     "requestId" := PStr request_id ]}.

Definition create_error_response (error : exn) (submission_id : pyval)
    (status_code : Z) : response :=
  let error_id := str_take 8 (uuid4_error now) in
  let error_detail := exn_str error in
  let response : gmap string pyval :=
    {[ "status" := PStr "error";
       "message" := PStr (if 500 <=? status_code
                          then "Error processing callback" else error_detail);
       "error_id" := PStr error_id;
       "submissionId" := submission_id;
       "timestamp" := PStr (now_error now) ]} in
  let response :=
    match error with
    | ValidationError _ field =>
        let response := <["error_detail" := PStr error_detail]> response in
        match field with
        | Some f => if String.eqb f "" then response
                    else <["field" := PStr f]> response
        | None => response
        end
    | _ => response
    end in
  (response, status_code).

Definition validate_json_payload : result pyval :=
  if negb (req_is_json req) then
    Raise (ValidationError "Content-Type must be application/json" None)
  else
    match req_get_json req with
    | inl PNone =>
        (* the ValidationError raised in the [try] is caught by its own
           [except Exception] and wrapped *)
        Raise (ValidationError
                 ("Invalid JSON payload: " +:+ "Request body must contain valid JSON") None)
    | inl data => Ok data
    | inr text => Raise (ValidationError ("Invalid JSON payload: " +:+ text) None)
    end.

(** The block each handler repeats for an optional amount:
    [if v is not None: try: v = float(v); if v < 0: raise ValidationError(..)
     except (ValueError, TypeError): raise ValidationError(..)] *)
Definition optional_float (name : string) (v : pyval) : result pyval :=
  match v with
  | PNone => Ok PNone
  | _ =>
      match float float_of_str v with
      | Ok f =>
          if float_is_negative f
          then Raise (ValidationError (name +:+ " must be non-negative") None)
          else Ok (PFloat f)
      | Raise e =>
          if is_value_or_type_error e
          then Raise (ValidationError (name +:+ " must be a valid number") None)
          else Raise e
      end
  end.

(** The same block for an optional count, with [int(v)]. *)
Definition optional_int (name : string) (v : pyval) : result pyval :=
  match v with
  | PNone => Ok PNone
  | _ =>
      match int v with
      | Ok n =>
          if n <? 0
          then Raise (ValidationError (name +:+ " must be non-negative") None)
          else Ok (PInt n)
      | Raise e =>
          if is_value_or_type_error e
          then Raise (ValidationError (name +:+ " must be a valid integer") None)
          else Raise e
      end
  end.

(** [if errors: logger.warning(f"   Errors: {', '.join(errors)}")] *)
Definition log_errors (errors : pyval) : result unit :=
  if truthy errors then _ ← join_val ", " errors; Ok tt else Ok tt.

(** The frame shared by the five handlers:
    [submission_id = None; try: <pre>; submission_id = data['submissionId'];
     <body>; return response, 200
     except ValidationError as e: 400  except Exception as e: 500]. *)
Definition on_error (e : exn) (submission_id : pyval) : response :=
  if is_validation_error e
  then create_error_response e submission_id 400
  else create_error_response e submission_id 500.

Definition callback (required_fields : list string)
    (body : pyval -> pyval -> M (gmap string pyval))
    (callback_logs : list log_entry) : response * list log_entry :=
  match (data ← validate_json_payload;
         _ ← validate_required_fields data required_fields;
         submission_id ← subscript data "submissionId";
         Ok (data, submission_id)) with
  | Raise e => (on_error e PNone, callback_logs)
  | Ok (data, submission_id) =>
      match body data submission_id callback_logs with
      | (Ok response, callback_logs) => ((response, 200), callback_logs)
      | (Raise e, callback_logs) => (on_error e submission_id, callback_logs)
      end
  end.

(** *** IRAS callback endpoints *)

(** [POST /iras/gst-return/callback] *)
Definition gst_return_callback : list log_entry -> response * list log_entry :=
  callback
    ["submissionId"; "submissionStatus"; "formType";
     "submissionDateTime"; "companyUEN"; "taxPeriod"]
    (fun data submission_id =>
       submission_status ← lift (subscript data "submissionStatus" ≫= validate_submission_status);
       form_type ← lift (subscript data "formType" ≫= validate_form_type);
       company_uen ← lift (subscript data "companyUEN" ≫= validate_uen);
       tax_period ← lift (subscript data "taxPeriod" ≫= validate_tax_period);
       ack_number ← lift (get data "acknowledgementNumber");
       total_tax ← lift (get data "totalTaxAmount");
       errors ← lift (get_default data "errors" (PList []));
       total_tax ← lift (optional_float "totalTaxAmount" total_tax);
       submission_date_time ← lift (subscript data "submissionDateTime");
       let callback_data : gmap string pyval :=
         {[ "submissionId" := submission_id;
            "submissionStatus" := PStr submission_status;
            "formType" := PStr form_type;
            "submissionDateTime" := submission_date_time;
            "companyUEN" := PStr company_uen;
            "taxPeriod" := PStr tax_period;
            "acknowledgementNumber" := ack_number;
            "totalTaxAmount" := total_tax;
            "errors" := errors ]} in
       request_id ← log_callback "GST-RETURN" callback_data;
       message ← lift (
         if String.eqb submission_status "SUCCESS" then
           Ok ("GST " +:+ form_type +:+ " submission for period " +:+ tax_period
               +:+ " processed successfully")
         else if String.eqb submission_status "FAILED" then
           _ ← log_errors errors;
           Ok ("GST " +:+ form_type +:+ " submission for period " +:+ tax_period
               +:+ " failed")
         else
           Ok ("GST " +:+ form_type +:+ " submission for period " +:+ tax_period
               +:+ " is " +:+ lower submission_status));
       mret (create_success_response message submission_id request_id)).

(** [POST /iras/form-cs/callback] *)
Definition form_cs_callback : list log_entry -> response * list log_entry :=
  callback
    ["submissionId"; "submissionStatus"; "submissionDateTime";
     "companyUEN"; "formVersion"; "filingType"]
    (fun data submission_id =>
       submission_status ← lift (subscript data "submissionStatus" ≫= validate_submission_status);
       company_uen ← lift (subscript data "companyUEN" ≫= validate_uen);
       submission_date_time ← lift (subscript data "submissionDateTime");
       form_version ← lift (subscript data "formVersion");
       filing_type ← lift (subscript data "filingType");
       effective_date ← lift (get data "effectiveDate");
       ack_number ← lift (get data "acknowledgementNumber");
       errors ← lift (get_default data "errors" (PList []));
       let callback_data : gmap string pyval :=
         {[ "submissionId" := submission_id;
            "submissionStatus" := PStr submission_status;
            "submissionDateTime" := submission_date_time;
            "companyUEN" := PStr company_uen;
            "formVersion" := form_version;
            "filingType" := filing_type;
            "effectiveDate" := effective_date;
            "acknowledgementNumber" := ack_number;
            "errors" := errors ]} in
       request_id ← log_callback "FORM-CS" callback_data;
       message ← lift (
         if String.eqb submission_status "SUCCESS" then
           Ok ("Form CS (" +:+ format filing_type +:+ ") submission processed successfully")
         else if String.eqb submission_status "FAILED" then
           errors ← get data "errors";
           _ ← log_errors errors;
           Ok ("Form CS (" +:+ format filing_type +:+ ") submission failed")
         else
           Ok ("Form CS (" +:+ format filing_type +:+ ") submission is "
               +:+ lower submission_status));
       mret (create_success_response message submission_id request_id)).

(** [POST /iras/commission-records/callback] *)
Definition commission_records_callback : list log_entry -> response * list log_entry :=
  callback
    ["submissionId"; "submissionStatus"; "submissionDateTime";
     "companyUEN"; "recordType"; "recordPeriod"]
    (fun data submission_id =>
       submission_status ← lift (subscript data "submissionStatus" ≫= validate_submission_status);
       company_uen ← lift (subscript data "companyUEN" ≫= validate_uen);
       total_records ← lift (get data "totalRecords");
       total_commission ← lift (get data "totalCommissionAmount");
       total_records ← lift (optional_int "totalRecords" total_records);
       total_commission ← lift (optional_float "totalCommissionAmount" total_commission);
       submission_date_time ← lift (subscript data "submissionDateTime");
       record_type ← lift (subscript data "recordType");
       record_period ← lift (subscript data "recordPeriod");
       ack_number ← lift (get data "acknowledgementNumber");
       errors ← lift (get_default data "errors" (PList []));
       let callback_data : gmap string pyval :=
         {[ "submissionId" := submission_id;
            "submissionStatus" := PStr submission_status;
            "submissionDateTime" := submission_date_time;
            "companyUEN" := PStr company_uen;
            "recordType" := record_type;
            "recordPeriod" := record_period;
            "totalRecords" := total_records;
            "totalCommissionAmount" := total_commission;
            "acknowledgementNumber" := ack_number;
            "errors" := errors ]} in
       request_id ← log_callback "COMMISSION-RECORDS" callback_data;
       message ← lift (
         if String.eqb submission_status "SUCCESS" then
           Ok ("Commission records (" +:+ format record_type +:+ ") for "
               +:+ format record_period +:+ " processed successfully")
         else if String.eqb submission_status "FAILED" then
           errors ← get data "errors";
           _ ← log_errors errors;
           Ok ("Commission records (" +:+ format record_type +:+ ") submission failed")
         else
           Ok ("Commission records (" +:+ format record_type +:+ ") submission is "
               +:+ lower submission_status));
       mret (create_success_response message submission_id request_id)).

(** [POST /iras/donation-records/callback] *)
Definition donation_records_callback : list log_entry -> response * list log_entry :=
  callback
    ["submissionId"; "submissionStatus"; "submissionDateTime";
     "companyUEN"; "donationType"; "donationPeriod"]
    (fun data submission_id =>
       submission_status ← lift (subscript data "submissionStatus" ≫= validate_submission_status);
       company_uen ← lift (subscript data "companyUEN" ≫= validate_uen);
       total_donations ← lift (get data "totalDonations");
       total_amount ← lift (get data "totalDonationAmount");
       total_donations ← lift (optional_int "totalDonations" total_donations);
       total_amount ← lift (optional_float "totalDonationAmount" total_amount);
       submission_date_time ← lift (subscript data "submissionDateTime");
       donation_type ← lift (subscript data "donationType");
       donation_period ← lift (subscript data "donationPeriod");
       ack_number ← lift (get data "acknowledgementNumber");
       errors ← lift (get_default data "errors" (PList []));
       let callback_data : gmap string pyval :=
         {[ "submissionId" := submission_id;
            "submissionStatus" := PStr submission_status;
            "submissionDateTime" := submission_date_time;
            "companyUEN" := PStr company_uen;
            "donationType" := donation_type;
            "donationPeriod" := donation_period;
            "totalDonations" := total_donations;
            "totalDonationAmount" := total_amount;
            "acknowledgementNumber" := ack_number;
            "errors" := errors ]} in
       request_id ← log_callback "DONATION-RECORDS" callback_data;
       message ← lift (
         if String.eqb submission_status "SUCCESS" then
           Ok ("Donation records (" +:+ format donation_type +:+ ") for "
               +:+ format donation_period +:+ " processed successfully")
         else if String.eqb submission_status "FAILED" then
           errors ← get data "errors";
           _ ← log_errors errors;
           Ok ("Donation records (" +:+ format donation_type +:+ ") submission failed")
         else
           Ok ("Donation records (" +:+ format donation_type +:+ ") submission is "
               +:+ lower submission_status));
       mret (create_success_response message submission_id request_id)).

(** [POST /iras/e-stamping/callback] *)
Definition e_stamping_callback : list log_entry -> response * list log_entry :=
  callback
    ["submissionId"; "submissionStatus"; "submissionDateTime";
     "companyUEN"; "documentType"]
    (fun data submission_id =>
       submission_status ← lift (subscript data "submissionStatus" ≫= validate_submission_status);
       company_uen ← lift (subscript data "companyUEN" ≫= validate_uen);
       stamp_duty ← lift (get data "stampDuty");
       stamp_duty ← lift (optional_float "stampDuty" stamp_duty);
       submission_date_time ← lift (subscript data "submissionDateTime");
       document_type ← lift (subscript data "documentType");
       certificate ← lift (get data "stampCertificateNumber");
       ack_number ← lift (get data "acknowledgementNumber");
       errors ← lift (get_default data "errors" (PList []));
       let callback_data : gmap string pyval :=
         {[ "submissionId" := submission_id;
            "submissionStatus" := PStr submission_status;
            "submissionDateTime" := submission_date_time;
            "companyUEN" := PStr company_uen;
            "documentType" := document_type;
            "stampDuty" := stamp_duty;
            "stampCertificateNumber" := certificate;
            "acknowledgementNumber" := ack_number;
            "errors" := errors ]} in
       request_id ← log_callback "E-STAMPING" callback_data;
       message ← lift (
         if String.eqb submission_status "SUCCESS" then
           Ok ("E-stamping for " +:+ format document_type +:+ " processed successfully")
         else if String.eqb submission_status "FAILED" then
           errors ← get data "errors";
           _ ← log_errors errors;
           Ok ("E-stamping for " +:+ format document_type +:+ " submission failed")
         else
           Ok ("E-stamping for " +:+ format document_type +:+ " submission is "
               +:+ lower submission_status));
       mret (create_success_response message submission_id request_id)).

(** *** Testing and monitoring endpoints *)

(** The JSON body of [GET /logs]. *)
Record logs_view : Type := {
  total_callbacks : nat;
  returned_logs : nat;
  logs : list log_entry;
}.

(** [request.args.get('limit', 10, type=int)]: the default when the
    parameter is missing or [int] rejects it. *)
Definition limit_arg : Z :=
  match req_args req !! "limit" with
  | Some s => match int_of_str s with Some z => z | None => 10 end
  | None => 10
  end.

(** [GET /logs] *)
Definition get_callback_logs (callback_logs : list log_entry) : logs_view * Z :=
  let limit := limit_arg in
  let limit := Z.min limit 50 in
  let recent_logs :=
    match callback_logs with
    | [] => []
    | _ => slice_from (- limit) callback_logs
    end in
  ({| total_callbacks := List.length callback_logs;
      returned_logs := List.length recent_logs;
      logs := recent_logs |}, 200).

(** [DELETE /logs] *)
Definition clear_logs (callback_logs : list log_entry) : response * list log_entry :=
  let logs_cleared := List.length callback_logs in
  let callback_logs : list log_entry := [] in
  (({[ "message" := PStr ("Cleared " +:+ pretty logs_cleared +:+ " callback logs");
       "timestamp" := PStr (now_response now) ]}, 200), callback_logs).

End Server.

(* ================================================================== *)
(** ** Histories of store operations                                    *)
(* ================================================================== *)

(** The two operations that change [callback_logs]: the append done by
    [log_callback] and the clear done by [DELETE /logs]. *)
Inductive store_op : Type :=
| Append (req : request) (now : oracle) (endpoint : string)
         (callback_data : gmap string pyval)
| Clear (now : oracle).

Definition run_op (callback_logs : list log_entry) (op : store_op) : list log_entry :=
  match op with
  | Append req now endpoint callback_data =>
      snd (log_callback req now endpoint callback_data callback_logs)
  | Clear now => snd (clear_logs now callback_logs)
  end.

Definition run (ops : list store_op) (callback_logs : list log_entry) : list log_entry :=
  fold_left run_op ops callback_logs.

(** The record an operation submits, if it is an append. *)
Definition accept (acc : list log_entry) (op : store_op) : list log_entry :=
  match op with
  | Append req now endpoint callback_data =>
      (acc ++ [make_log_entry req now endpoint callback_data])%list
  | Clear _ => []
  end.

(** The records accepted since the last clear, in order of acceptance. *)
Definition accepted (ops : list store_op) : list log_entry := fold_left accept ops [].

(** The last [n] elements of a list, in their order. *)
Definition last_n {A} (n : nat) (l : list A) : list A := drop (List.length l - n) l.

(* ================================================================== *)
(** ** Predicates used in the statements                                *)
(* ================================================================== *)

Definition newline : string := String "010" EmptyString.

(** The value of a string of decimal digits. *)
Definition decimal_value (s : string) : Z :=
  fold_left (fun acc c => 10 * acc + digit_val c) (list_ascii_of_string s) 0.

Definition all_digits (s : string) : bool :=
  forallb is_digit (list_ascii_of_string s).

(** Eight or nine digits followed by one upper-case letter, nothing else. *)
Definition uen_format (s : string) : Prop :=
  exists (ds : list ascii) (letter : ascii),
    list_ascii_of_string s = (ds ++ [letter])%list
    /\ (List.length ds = 8 \/ List.length ds = 9)%nat
    /\ forallb is_digit ds = true
    /\ is_upper_letter letter = true.

(** Six digits [YYYYMM] with the year in 2000..2100 and the month in 1..12. *)
Definition tax_period_format (s : string) : bool :=
  (String.length s =? 6)%nat && all_digits s
  && (2000 <=? decimal_value (str_take 4 s)) && (decimal_value (str_take 4 s) <=? 2100)
  && (1 <=? decimal_value (str_drop 4 s)) && (decimal_value (str_drop 4 s) <=? 12).

(** Equality of two strings up to the case of their letters. *)
Definition same_ignoring_case (s c : string) : Prop := lower s = lower c.

(** The letter U+00DF, and a string with "ss" written for each of them. *)
Definition sharp_s : ascii := ascii_of_nat 223.

Fixpoint ss_for_sharp_s (s : string) : string :=
  match s with
  | EmptyString => EmptyString
  | String c s' =>
      if Ascii.eqb c sharp_s then String "s" (String "s" (ss_for_sharp_s s'))
      else String c (ss_for_sharp_s s')
  end.

(** The characters of the canonical values: upper-case letters A to Z
    and digits. *)
Definition upper_or_digit (c : ascii) : bool := is_upper_letter c || is_digit c.

Definition canonical_spelling (v : string) : bool :=
  forallb upper_or_digit (list_ascii_of_string v).

(** A required field as the specification describes a missing one:
    absent, null, or the empty string. *)
Definition absent_null_or_empty (d : gmap string pyval) (field : string) : Prop :=
  d !! field = None \/ d !! field = Some PNone \/ d !! field = Some (PStr "").





(** A [GET /logs] request with the given query string value of [limit]
    ([None]: no such parameter). *)
Definition logs_request (limit : option string) : request :=
  {| req_is_json := false;
     req_get_json := inr "";
     req_args := match limit with Some s => {[ "limit" := s ]} | None => ∅ end;
     req_headers_get := fun _ => None;
     req_headers := ∅;
     req_remote_addr := None;
     req_method := "GET" |}.

(** The arguments of a call of [log_callback]. *)
Definition append_args : Type := request * oracle * string * gmap string pyval.

Definition append_op (a : append_args) : store_op :=
  let '(req, now, endpoint, callback_data) := a in Append req now endpoint callback_data.

Definition entry_of (a : append_args) : log_entry :=
  let '(req, now, endpoint, callback_data) := a in
  make_log_entry req now endpoint callback_data.

(* ================================================================== *)
(** ** Outcomes of a callback request                                   *)
(* ================================================================== *)

(** What a handler can leave behind, for a store [callback_logs] before
    the request: an acceptance (200, one record appended), a rejection
    (400, store untouched), a failure before the append (500, store
    untouched) and a failure after it (500, one record appended). *)
Inductive outcome (req : request) (now : oracle) (callback_logs : list log_entry)
  : response * list log_entry -> Prop :=
| Accepted body endpoint callback_data :
    body !! "status" = Some (PStr "received") ->
    outcome req now callback_logs
      ((body, 200), snd (log_callback req now endpoint callback_data callback_logs))
| Rejected body :
    body !! "status" = Some (PStr "error") ->
    outcome req now callback_logs ((body, 400), callback_logs)
| Failed body :
    body !! "status" = Some (PStr "error") ->
    outcome req now callback_logs ((body, 500), callback_logs)
| FailedAfterAppend body endpoint callback_data :
    body !! "status" = Some (PStr "error") ->
    outcome req now callback_logs
      ((body, 500), snd (log_callback req now endpoint callback_data callback_logs)).

(** A handler body up to and including the append: on return one record
    was appended and the body says "received"; on a validation error the
    store is untouched. *)
Definition before_append (req : request) (now : oracle)
    (m : M (gmap string pyval)) : Prop :=
  forall callback_logs,
    match m callback_logs with
    | (Ok body, callback_logs') =>
        body !! "status" = Some (PStr "received")
        /\ exists endpoint callback_data,
             callback_logs' = snd (log_callback req now endpoint callback_data callback_logs)
    | (Raise e, callback_logs') =>
        callback_logs' = callback_logs
        \/ (is_validation_error e = false
            /\ exists endpoint callback_data,
                 callback_logs' = snd (log_callback req now endpoint callback_data callback_logs))
    end.

(** The rest of a handler body, after the append: the store is not
    touched again and no validation error is raised. *)
Definition after_append (m : M (gmap string pyval)) : Prop :=
  forall callback_logs,
    snd (m callback_logs) = callback_logs
    /\ match fst (m callback_logs) with
       | Ok body => body !! "status" = Some (PStr "received")
       | Raise e => is_validation_error e = false
       end.

(** A JSON request with the given decoded body. *)
Definition json_request (data : pyval) : request :=
  {| req_is_json := true;
     req_get_json := inl data;
     req_args := ∅;
     req_headers_get := fun _ => None;
     req_headers := ∅;
     req_remote_addr := None;
     req_method := "POST" |}.

(** The example payload of [/docs], with a given status and list of
    errors. *)
Definition gst_payload (status : string) (errors : pyval) : gmap string pyval :=
  {[ "submissionId" := PStr "GST202501001234";
     "submissionStatus" := PStr status;
     "submissionDateTime" := PStr "2025-01-15T14:30:00+08:00";
     "companyUEN" := PStr "201234567D";
     "formType" := PStr "F5";
     "taxPeriod" := PStr "202412";
     "acknowledgementNumber" := PStr "ACK123456789";
     "errors" := errors ]}.



(** Sample values drawn while a request is served. *)
Definition sample_oracle : oracle :=
  {| uuid4_log := "3f2b8c1e-7d4a-4e5b-9c6d-0a1b2c3d4e5f";
     now_log := "2025-01-15T14:30:01.000001";
     now_response := "2025-01-15T14:30:01.000002";
     uuid4_error := "9a8b7c6d-5e4f-4a3b-8c2d-1e0f9a8b7c6d";
     now_error := "2025-01-15T14:30:01.000003" |}.

Module Literals.
Import PrimFloat.
End Literals.

(* ================================================================== *)
(** ** Health, statistics, validation-only and mock endpoints           *)
(* ================================================================== *)

Module Numbers.
Import PrimFloat.
(** The binary64 number that the literal [0.8] denotes. *)
Definition float_0_8 : float := 0x1.999999999999ap-1%float.
(** The binary64 number that the literal [15000.50] denotes. *)
Definition float_15000_5 : float := 15000.5%float.
End Numbers.

(** [n < f] for an [int] and a [float]: Python compares the two exact
    values, without rounding the integer. *)
Definition int_lt_float (z : Z) (f : PrimFloat.float) : bool :=
  match FloatOps.Prim2SF f with
  | SpecFloat.S754_nan => false
  | SpecFloat.S754_infinity sg => negb sg
  | SpecFloat.S754_zero _ => z <? 0
  | SpecFloat.S754_finite sg m e =>
      let v := if sg then Zneg m else Zpos m in
      match e with
      | Zneg p => z * 2 ^ Zpos p <? v
      | _ => z <? v * 2 ^ e
      end
  end.

(** [n * f] for an [int] and a [float]: the integer is converted first. *)
Definition int_mul_float (z : Z) (f : PrimFloat.float) : result PrimFloat.float :=
  x ← float_of_int z; Ok (PrimFloat.mul x f).

(** Whether a value can be a dict key: lists and dicts cannot. *)
Definition hashable (v : pyval) : bool :=
  match v with
  | PList _ | PDict _ => false
  | _ => true
  end.

(** [d[k] = d.get(k, 0) + 1] on a dict of counters kept in insertion
    order; [eq] is the equality of keys. *)
Fixpoint bump {K} (eq : K -> K -> bool) (k : K) (d : list (K * nat)) : list (K * nat) :=
  match d with
  | [] => [(k, 1%nat)]
  | (k', n) :: d' =>
      if eq k' k then (k', (n + 1)%nat) :: d' else (k', n) :: bump eq k d'
  end.

(** One element of [recent_activity]. *)
Record activity : Type := {
  act_timestamp : string;
  act_endpoint : string;
  act_status : pyval;
  act_submissionId : pyval;
}.

(** The JSON body of [GET /logs/stats]. *)
Inductive stats_body : Type :=
| NoCallbacks                       (* {"message": "No callbacks received yet"} *)
| Stats (total : nat)
        (status_breakdown : list (pyval * nat))
        (endpoint_breakdown : list (string * nat))
        (latest_callback : pyval)
        (recent_activity : list activity)
| StatsError (body : gmap string pyval).

(** The values [datetime.now()] gives while a mock payload is built:
    two [strftime('%Y%m%d%H%M%S')] stamps and one [isoformat()]. *)
Record mock_stamps : Type := {
  stamp_id : string;
  stamp_date_time : string;
  stamp_ack : string;
}.

Section Monitoring.

(** [os.sys.version], and the equality of dict keys on values other
    than the strings the module stores, are left to the interpreter. *)
Variable python_version : string.
Variable key_eq : pyval -> pyval -> bool.

Variable req : request.
Variable now : oracle.

(** [GET /health] *)
Definition health_check (callback_logs : list log_entry) : response :=
  let log_count := List.length callback_logs in
  match (threshold ← int_mul_float (Z.of_nat MAX_LOGS) Numbers.float_0_8;
         Ok ({[ "status" := PStr "healthy";
                "timestamp" := PStr (now_response now);
                "platform" := PStr " App Hosting + Flask";
                "logs_count" := PInt (Z.of_nat log_count);
                "memory_usage" :=
                  PStr (if int_lt_float (Z.of_nat log_count) threshold
                        then "normal" else "high");
                "python_version" := PStr python_version;
                "flask_version" := PStr "2.3.3" ]} : gmap string pyval)) with
  | Ok body => (body, 200)
  | Raise e => create_error_response now e PNone 503
  end.

(** The first loop of [get_callback_stats]: it stops with [TypeError] at a
    status that cannot be a dict key. *)
Fixpoint count_logs (callback_logs : list log_entry)
    (status_counts : list (pyval * nat)) (endpoint_counts : list (string * nat))
  : result (list (pyval * nat) * list (string * nat)) :=
  match callback_logs with
  | [] => Ok (status_counts, endpoint_counts)
  | log :: rest =>
      if hashable (status log) then
        count_logs rest (bump key_eq (status log) status_counts)
                        (bump String.eqb (endpoint log) endpoint_counts)
      else Raise TypeError
  end.

(** One entry of the second loop. *)
Definition summary (log : log_entry) : activity :=
  {| act_timestamp := timestamp log;
     act_endpoint := endpoint log;
     act_status := status log;
     act_submissionId := dict_get_default (callback_data log) "submissionId" (PStr "N/A") |}.

(** [GET /logs/stats] *)
Definition get_callback_stats (callback_logs : list log_entry) : stats_body * Z :=
  match callback_logs with
  | [] => (NoCallbacks, 200)
  | _ =>
      match count_logs callback_logs [] [] with
      | Ok (status_counts, endpoint_counts) =>
          let recent_activity := map summary (slice_from (-10) callback_logs) in
          (Stats (List.length callback_logs) status_counts endpoint_counts
                 (match last callback_logs with
                  | Some log => PStr (timestamp log)
                  | None => PNone
                  end)
                 recent_activity, 200)
      | Raise e =>
          let '(body, code) := create_error_response now e PNone 500 in
          (StatsError body, code)
      end
  end.

(** The checks of [POST /test/validate-callback], by [type]. *)
Definition validate_by_type (callback_type : string) (data : pyval) : result unit :=
  if String.eqb callback_type "gst-return" then
    _ ← validate_required_fields data
          ["submissionId"; "submissionStatus"; "formType";
           "submissionDateTime"; "companyUEN"; "taxPeriod"];
    _ ← subscript data "submissionStatus" ≫= validate_submission_status;
    _ ← subscript data "formType" ≫= validate_form_type;
    _ ← subscript data "companyUEN" ≫= validate_uen;
    _ ← subscript data "taxPeriod" ≫= validate_tax_period;
    Ok tt
  else if str_in callback_type
            ["form-cs"; "commission-records"; "donation-records"; "e-stamping"] then
    _ ← validate_required_fields data
          ["submissionId"; "submissionStatus"; "submissionDateTime"; "companyUEN"];
    _ ← subscript data "submissionStatus" ≫= validate_submission_status;
    _ ← subscript data "companyUEN" ≫= validate_uen;
    Ok tt
  else Ok tt.

(** [POST /test/validate-callback]: it does not touch [callback_logs]. *)
Definition test_validate_callback : response :=
  match (data ← validate_json_payload req;
         let callback_type := default "gst-return" (req_args req !! "type") in
         _ ← validate_by_type callback_type data;
         Ok ({[ "status" := PStr "valid";
                "message" := PStr ("Callback data validation passed for " +:+ callback_type);
                "validated_data" := data;
                "timestamp" := PStr (now_response now) ]} : gmap string pyval)) with
  | Ok body => (body, 200)
  | Raise (ValidationError message field) =>
      ({[ "status" := PStr "invalid";
          "message" := PStr "Validation failed";
          "error" := PStr message;
          "field" := match field with Some f => PStr f | None => PNone end;
          "timestamp" := PStr (now_error now) ]}, 400)
  | Raise e => create_error_response now e PNone 500
  end.

(** The mock payloads. *)
Definition mock_gst_data (stamps : mock_stamps) : gmap string pyval :=
  {[ "submissionId" := PStr ("GST" +:+ stamp_id stamps);
     "submissionStatus" := PStr "SUCCESS";
     "formType" := PStr "F5";
     "submissionDateTime" := PStr (stamp_date_time stamps);
     "companyUEN" := PStr "201234567D";
     "taxPeriod" := PStr "202412";
     "acknowledgementNumber" := PStr ("ACK" +:+ stamp_ack stamps);
     "totalTaxAmount" := PFloat Numbers.float_15000_5;
     "errors" := PList [] ]}.

Definition mock_form_cs_data (stamps : mock_stamps) : gmap string pyval :=
  {[ "submissionId" := PStr ("CS" +:+ stamp_id stamps);
     "submissionStatus" := PStr "SUCCESS";
     "submissionDateTime" := PStr (stamp_date_time stamps);
     "companyUEN" := PStr "201234567D";
     "formVersion" := PStr "2025.1";
     "filingType" := PStr "ANNUAL_RETURN";
     "effectiveDate" := PStr "2025-01-01";
     "acknowledgementNumber" := PStr ("ACK" +:+ stamp_ack stamps);
     "errors" := PList [] ]}.

(** [POST /test/mock-gst-callback].  [test_req] is the request of the
    [app.test_request_context] in which [log_callback] runs. *)
Definition test_mock_gst_callback (test_req : request) (stamps : mock_stamps)
    (callback_logs : list log_entry) : response * list log_entry :=
  let mock_data := mock_gst_data stamps in
  match log_callback test_req now "GST-RETURN-TEST" mock_data callback_logs with
  | (Ok request_id, callback_logs) =>
      let response :=
        create_success_response now
          "Mock GST F5 submission for period 202412 processed successfully"
          (dict_get mock_data "submissionId") request_id in
      (({[ "message" := PStr "Mock GST callback generated and processed successfully";
           "mock_data" := PDict mock_data;
           "callback_response" := PDict response ]}, 200), callback_logs)
  | (Raise e, callback_logs) => (create_error_response now e PNone 500, callback_logs)
  end.

(** [POST /test/mock-form-cs-callback] *)
Definition test_mock_form_cs_callback (test_req : request) (stamps : mock_stamps)
    (callback_logs : list log_entry) : response * list log_entry :=
  let mock_data := mock_form_cs_data stamps in
  match log_callback test_req now "FORM-CS-TEST" mock_data callback_logs with
  | (Ok request_id, callback_logs) =>
      let response :=
        create_success_response now
          "Form CS (ANNUAL_RETURN) submission processed successfully"
          (dict_get mock_data "submissionId") request_id in
      (({[ "message" := PStr "Mock Form CS callback generated and processed successfully";
           "mock_data" := PDict mock_data;
           "callback_response" := PDict response ]}, 200), callback_logs)
  | (Raise e, callback_logs) => (create_error_response now e PNone 500, callback_logs)
  end.

End Monitoring.

(* ================================================================== *)
(** ** The five submission kinds and the API as a whole                 *)
(* ================================================================== *)

Inductive endpoint_kind : Type :=
| GstReturn | FormCs | CommissionRecords | DonationRecords | EStamping.

(** The tag a handler passes to [log_callback]. *)
Definition tag (k : endpoint_kind) : string :=
  match k with
  | GstReturn => "GST-RETURN"
  | FormCs => "FORM-CS"
  | CommissionRecords => "COMMISSION-RECORDS"
  | DonationRecords => "DONATION-RECORDS"
  | EStamping => "E-STAMPING"
  end.

(** The [required_fields] list of a handler. *)
Definition required (k : endpoint_kind) : list string :=
  match k with
  | GstReturn =>
      ["submissionId"; "submissionStatus"; "formType";
       "submissionDateTime"; "companyUEN"; "taxPeriod"]
  | FormCs =>
      ["submissionId"; "submissionStatus"; "submissionDateTime";
       "companyUEN"; "formVersion"; "filingType"]
  | CommissionRecords =>
      ["submissionId"; "submissionStatus"; "submissionDateTime";
       "companyUEN"; "recordType"; "recordPeriod"]
  | DonationRecords =>
      ["submissionId"; "submissionStatus"; "submissionDateTime";
       "companyUEN"; "donationType"; "donationPeriod"]
  | EStamping =>
      ["submissionId"; "submissionStatus"; "submissionDateTime";
       "companyUEN"; "documentType"]
  end.

(** The value of [type] that selects the kind in
    [POST /test/validate-callback]. *)
Definition type_name (k : endpoint_kind) : string :=
  match k with
  | GstReturn => "gst-return"
  | FormCs => "form-cs"
  | CommissionRecords => "commission-records"
  | DonationRecords => "donation-records"
  | EStamping => "e-stamping"
  end.

(** The tags found in the store: those of the five handlers and of the
    two mock endpoints. *)
Definition known_tags : list string :=
  ["GST-RETURN"; "FORM-CS"; "COMMISSION-RECORDS"; "DONATION-RECORDS"; "E-STAMPING";
   "GST-RETURN-TEST"; "FORM-CS-TEST"].

(** A record as the endpoints store it: a known tag, and as status one
    of the six canonical strings, the one its payload carries. *)
Definition record_ok (log : log_entry) : Prop :=
  In (endpoint log) known_tags
  /\ exists c, In c allowed_statuses
               /\ status log = PStr c
               /\ callback_data log !! "submissionStatus" = Some (PStr c).

(** [d.get(k, 0)] on a dict of counters. *)
Fixpoint counter_get {K} (eq : K -> K -> bool) (k : K) (d : list (K * nat)) : nat :=
  match d with
  | [] => 0%nat
  | (k', n) :: d' => if eq k' k then n else counter_get eq k d'
  end.

(** The sum of the counters of a dict. *)
Definition counter_total {K} (d : list (K * nat)) : nat :=
  fold_right (fun kn acc => (snd kn + acc)%nat) 0%nat d.

Section Api.

Variable float_of_str : string -> option PrimFloat.float.
Variable format : pyval -> string.

(** The handler of a kind. *)
Definition handler (k : endpoint_kind) (req : request) (now : oracle)
  : list log_entry -> response * list log_entry :=
  match k with
  | GstReturn => gst_return_callback float_of_str req now
  | FormCs => form_cs_callback format req now
  | CommissionRecords => commission_records_callback float_of_str format req now
  | DonationRecords => donation_records_callback float_of_str format req now
  | EStamping => e_stamping_callback float_of_str format req now
  end.

(** One request to the service.  The read-only routes ([GET /logs],
    [GET /logs/stats], [GET /health], [POST /test/validate-callback]) do
    not assign [callback_logs]. *)
Inductive api_call : Type :=
| PostCallback (k : endpoint_kind) (req : request) (now : oracle)
| PostMockGst (test_req : request) (stamps : mock_stamps) (now : oracle)
| PostMockFormCs (test_req : request) (stamps : mock_stamps) (now : oracle)
| DeleteLogs (now : oracle)
| GetLogs (req : request)
| GetStats (now : oracle)
| GetHealth (now : oracle)
| PostValidate (req : request) (now : oracle).

(** The store after a request. *)
Definition serve (callback_logs : list log_entry) (call : api_call) : list log_entry :=
  match call with
  | PostCallback k req now => snd (handler k req now callback_logs)
  | PostMockGst test_req stamps now =>
      snd (test_mock_gst_callback now test_req stamps callback_logs)
  | PostMockFormCs test_req stamps now =>
      snd (test_mock_form_cs_callback now test_req stamps callback_logs)
  | DeleteLogs now => snd (clear_logs now callback_logs)
  | GetLogs _ | GetStats _ | GetHealth _ | PostValidate _ _ => callback_logs
  end.

End Api.

(** No exception of the module names a field. *)
Definition no_field (e : exn) : Prop :=
  match e with
  | ValidationError _ (Some _) => False
  | _ => True
  end.

(** A handler body, seen from the store: when it returns, it has
    appended one record under [endpoint] whose data satisfy [P] and its
    answer is the success response for [submission_id] with the request
    id of that record; when it raises, the exception names no field and
    the store is untouched or holds one such record more. *)
Definition appends_record (req : request) (now : oracle) (endpoint : string)
    (P : gmap string pyval -> Prop) (submission_id : pyval)
    (m : M (gmap string pyval)) : Prop :=
  forall callback_logs,
    match m callback_logs with
    | (Ok body, callback_logs') =>
        exists callback_data message,
          P callback_data
          /\ callback_logs' = snd (log_callback req now endpoint callback_data callback_logs)
          /\ body = create_success_response now message submission_id
                      (str_take 8 (uuid4_log now))
    | (Raise e, callback_logs') =>
        no_field e
        /\ (callback_logs' = callback_logs
            \/ exists callback_data,
                 P callback_data
                 /\ callback_logs'
                    = snd (log_callback req now endpoint callback_data callback_logs))
    end.

(** The end of a handler body, after the append: the store is not
    touched, a return carries the success response and an exception
    names no field. *)
Definition answers (now : oracle) (submission_id : pyval) (request_id : string)
    (m : M (gmap string pyval)) : Prop :=
  forall callback_logs,
    snd (m callback_logs) = callback_logs
    /\ match fst (m callback_logs) with
       | Ok body =>
           exists message,
             body = create_success_response now message submission_id request_id
       | Raise e => no_field e
       end.

(** The data of a stored record: the canonical status and the submission
    id of the payload. *)
Definition stored_data (submission_id : pyval) (callback_data : gmap string pyval) : Prop :=
  callback_data !! "submissionId" = Some submission_id
  /\ exists c, In c allowed_statuses
               /\ callback_data !! "submissionStatus" = Some (PStr c).

(** A rejection: HTTP 400 with the validation message, given as
    [message] and as [error_detail], for the submission id [submission_id],
    without a field, and a store left as it was. *)
Definition rejects (r : response * list log_entry) (callback_logs : list log_entry)
    (message : string) (submission_id : pyval) : Prop :=
  snd (fst r) = 400
  /\ fst (fst r) !! "status" = Some (PStr "error")
  /\ fst (fst r) !! "message" = Some (PStr message)
  /\ fst (fst r) !! "error_detail" = Some (PStr message)
  /\ fst (fst r) !! "submissionId" = Some submission_id
  /\ fst (fst r) !! "field" = None
  /\ snd r = callback_logs.

(** A failure: HTTP 500 with the generic message and no detail. *)
Definition fails (a : response) (submission_id : pyval) : Prop :=
  snd a = 500
  /\ fst a !! "status" = Some (PStr "error")
  /\ fst a !! "message" = Some (PStr "Error processing callback")
  /\ fst a !! "error_detail" = None
  /\ fst a !! "field" = None
  /\ fst a !! "submissionId" = Some submission_id.

(** The first steps of [callback], up to the assignment of
    [submission_id]: the body is decoded, the required fields are
    checked and the submission id is read. *)
Definition preamble (req : request) (required_fields : list string)
  : result (pyval * pyval) :=
  data ← validate_json_payload req;
  _ ← validate_required_fields data required_fields;
  submission_id ← subscript data "submissionId";
  Ok (data, submission_id).

(** Whether a record has the status [s], or the tag [t]. *)
Definition has_status (s : string) (log : log_entry) : bool :=
  match status log with
  | PStr c => String.eqb c s
  | _ => false
  end.

Definition has_endpoint (t : string) (log : log_entry) : bool :=
  String.eqb (endpoint log) t.

(** The equality of dict keys, on strings. *)
Definition str_key_eq (a b : pyval) : bool :=
  match a, b with
  | PStr x, PStr y => String.eqb x y
  | _, _ => false
  end.

(** A dict of counters whose keys are strings. *)
Definition str_keys (d : list (string * nat)) : list (pyval * nat) :=
  map (fun kn => (PStr (fst kn), snd kn)) d.

(** The two parts of the checks of [POST /test/validate-callback] for a
    kind: the required fields, and the checks of single fields. *)
Definition base_required (k : endpoint_kind) : list string :=
  match k with
  | GstReturn =>
      ["submissionId"; "submissionStatus"; "formType";
       "submissionDateTime"; "companyUEN"; "taxPeriod"]
  | _ => ["submissionId"; "submissionStatus"; "submissionDateTime"; "companyUEN"]
  end.

Definition field_checks (k : endpoint_kind) (data : pyval) : result unit :=
  match k with
  | GstReturn =>
      _ ← subscript data "submissionStatus" ≫= validate_submission_status;
      _ ← subscript data "formType" ≫= validate_form_type;
      _ ← subscript data "companyUEN" ≫= validate_uen;
      _ ← subscript data "taxPeriod" ≫= validate_tax_period;
      Ok tt
  | _ =>
      _ ← subscript data "submissionStatus" ≫= validate_submission_status;
      _ ← subscript data "companyUEN" ≫= validate_uen;
      Ok tt
  end.

(** The answers of [POST /test/validate-callback]. *)
Definition valid_answer (now : oracle) (callback_type : string) (data : pyval) : response :=
  ({[ "status" := PStr "valid";
      "message" := PStr ("Callback data validation passed for " +:+ callback_type);
      "validated_data" := data;
      "timestamp" := PStr (now_response now) ]}, 200).

Definition invalid_answer (now : oracle) (message : string) : response :=
  ({[ "status" := PStr "invalid";
      "message" := PStr "Validation failed";
      "error" := PStr message;
      "field" := PNone;
      "timestamp" := PStr (now_error now) ]}, 400).

(** A request that carries the header X-Forwarded-For with the given
    value, and no other. *)
Definition forwarded_request (value : string) : request :=
  {| req_is_json := false;
     req_get_json := inr "";
     req_args := ∅;
     req_headers_get :=
       fun name => if String.eqb (lower name) "x-forwarded-for" then Some value else None;
     req_headers := {[ "X-Forwarded-For" := value ]};
     req_remote_addr := Some "10.0.0.1";
     req_method := "GET" |}.

(** The character U+00A0, no-break space. *)
Definition nbsp : ascii := ascii_of_nat 160.

(** A JSON request to [POST /test/validate-callback], with the given
    [type] parameter and decoded body. *)
Definition validate_request (callback_type : option string) (data : pyval) : request :=
  {| req_is_json := true;
     req_get_json := inl data;
     req_args := match callback_type with Some t => {[ "type" := t ]} | None => ∅ end;
     req_headers_get := fun _ => None;
     req_headers := ∅;
     req_remote_addr := None;
     req_method := "POST" |}.

(* ================================================================== *)
(** * Properties                                                        *)
(* ================================================================== *)

(* ================================================================== *)
(** ** Characters and case mappings                                     *)
(* ================================================================== *)


Lemma append_cons c a b : String c a +:+ b = String c (a +:+ b).
Proof. reflexivity. Qed.

Lemma append_nil b : "" +:+ b = b.
Proof. reflexivity. Qed.

Lemma lower_app a b : lower (a +:+ b) = lower a +:+ lower b.
Proof.
  induction a as [|c a IH]; [reflexivity|].
  cbn [lower]. rewrite !append_cons. cbn [lower]. by rewrite IH.
Qed.

(** A property of characters that holds of each of the 256. *)
Lemma for_all_chars (P : ascii -> bool) :
  forallb P (map ascii_of_nat (seq 0 256)) = true -> forall c, P c = true.
Proof.
  intros H c. rewrite forallb_forall in H. apply H.
  rewrite <- (ascii_nat_embedding c). apply in_map, in_seq.
  pose proof (nat_ascii_bounded c). lia.
Qed.

(** A character whose lower case is that of a canonical character is
    that character or its lower case, and [upper] gives back the
    canonical one. *)
Lemma upper_char_variant c a :
  upper_or_digit a = true -> lower_char c = lower_char a ->
  upper_char c = Some (String a EmptyString).
Proof.
  intros Ha H.
  pose (back := fun x : ascii =>
          ascii_of_nat (if is_lower_letter x then nat_of_ascii x - 32 else nat_of_ascii x)).
  assert (Hc : upper_or_digit (back (lower_char c)) = true ->
               upper_char c = Some (String (back (lower_char c)) EmptyString)).
  { pose proof (for_all_chars
      (fun c => implb (upper_or_digit (back (lower_char c)))
                  (match upper_char c with
                   | Some u => String.eqb u (String (back (lower_char c)) EmptyString)
                   | None => false
                   end)) eq_refl c) as Hall.
    cbv beta in Hall. intros Hb. rewrite Hb in Hall. cbn [implb] in Hall.
    destruct (upper_char c) as [u|]; [|discriminate].
    apply String.eqb_eq in Hall. by subst. }
  assert (Hback : back (lower_char a) = a).
  { pose proof (for_all_chars
      (fun a => implb (upper_or_digit a) (Ascii.eqb (back (lower_char a)) a)) eq_refl a)
      as Hall.
    cbv beta in Hall. rewrite Ha in Hall. cbn [implb] in Hall.
    by apply Ascii.eqb_eq in Hall. }
  rewrite H, Hback in Hc. by apply Hc.
Qed.

(** What [upper] makes of one character, when the result is canonical. *)
Lemma upper_char_spelled c u :
  upper_char c = Some u -> canonical_spelling u = true ->
  lower (ss_for_sharp_s (String c EmptyString)) = lower u.
Proof.
  intros Hu Hc.
  pose proof (for_all_chars
    (fun c => match upper_char c with
              | Some u => implb (canonical_spelling u)
                            (String.eqb (lower (ss_for_sharp_s (String c EmptyString)))
                                        (lower u))
              | None => true
              end) eq_refl c) as Hall.
  cbv beta in Hall. rewrite Hu, Hc in Hall. cbn [implb] in Hall.
  by apply String.eqb_eq in Hall.
Qed.

Lemma canonical_spelling_app a b :
  canonical_spelling (a +:+ b) = canonical_spelling a && canonical_spelling b.
Proof.
  unfold canonical_spelling. induction a as [|c a IH]; [reflexivity|].
  rewrite append_cons. cbn [list_ascii_of_string forallb]. by rewrite IH, andb_assoc.
Qed.

Lemma ss_for_sharp_s_cons c s :
  ss_for_sharp_s (String c s)
  = ss_for_sharp_s (String c EmptyString) +:+ ss_for_sharp_s s.
Proof. cbn [ss_for_sharp_s]. by destruct (Ascii.eqb c sharp_s). Qed.

(** A case variant of a canonical value is upper-cased to it. *)
Lemma upper_variant s : forall v,
  canonical_spelling v = true -> lower s = lower v -> upper s = Some v.
Proof.
  induction s as [|c s IH]; intros [|a v] Hv H; try discriminate H; [reflexivity|].
  cbn [lower] in H. injection H as Hc Hs.
  unfold canonical_spelling in Hv. cbn [list_ascii_of_string forallb] in Hv.
  apply andb_true_iff in Hv as [Ha Hv].
  cbn [upper]. rewrite (upper_char_variant c a Ha Hc), (IH v Hv Hs). reflexivity.
Qed.

(** [upper] gives a canonical value exactly on the strings that spell it
    up to the case of the letters once "ss" is written for U+00DF. *)
Lemma upper_spelled_iff s : forall v,
  canonical_spelling v = true ->
  (upper s = Some v <-> lower (ss_for_sharp_s s) = lower v).
Proof.
  induction s as [|c s IH]; intros v Hv.
  - cbn. split; [by intros [= <-]|]. destruct v; [done | discriminate].
  - rewrite ss_for_sharp_s_cons, lower_app. cbn [upper]. split.
    + destruct (upper_char c) as [u|] eqn:Ec; [|discriminate].
      destruct (upper s) as [us|] eqn:Es; [|discriminate].
      intros [= <-]. rewrite canonical_spelling_app in Hv.
      apply andb_true_iff in Hv as [Hu Hus].
      rewrite lower_app. f_equal; [by apply upper_char_spelled | by apply IH].
    + cbn [ss_for_sharp_s]. destruct (Ascii.eqb_spec c sharp_s) as [->|Hc].
      * cbn [lower]. rewrite !append_cons, append_nil.
        destruct v as [|a1 [|a2 v]]; try discriminate.
        cbn [lower]. intros [= H1 H2 H].
        unfold canonical_spelling in Hv. cbn [list_ascii_of_string forallb] in Hv.
        apply andb_true_iff in Hv as [Ha1 Hv]. apply andb_true_iff in Hv as [Ha2 Hv].
        assert (HS : forall a, upper_or_digit a = true ->
                     lower_char "s" = lower_char a -> a = "S"%char).
        { intros a Ha Hl.
          pose proof (for_all_chars
            (fun a => implb (upper_or_digit a && Ascii.eqb (lower_char "s") (lower_char a))
                        (Ascii.eqb a "S")) eq_refl a) as Hall.
          cbv beta in Hall. rewrite Ha, <- Hl, Ascii.eqb_refl in Hall.
          by apply Ascii.eqb_eq in Hall. }
        assert (E1 : a1 = "S"%char) by (by apply HS).
        assert (E2 : a2 = "S"%char) by (by apply HS).
        subst a1 a2. apply (IH v Hv) in H. rewrite H. reflexivity.
      * cbn [lower]. rewrite append_cons, append_nil.
        destruct v as [|a v]; [discriminate|].
        cbn [lower]. intros [= H1 H].
        unfold canonical_spelling in Hv. cbn [list_ascii_of_string forallb] in Hv.
        apply andb_true_iff in Hv as [Ha Hv].
        rewrite (upper_char_variant c a Ha H1). apply (IH v Hv) in H. by rewrite H.
Qed.

Lemma str_in_In x l : str_in x l = true <-> In x l.
Proof.
  unfold str_in. rewrite existsb_exists. split.
  - intros (y & Hy & He). apply String.eqb_eq in He. by subst.
  - intros H. exists x. split; [done|]. apply String.eqb_refl.
Qed.

Lemma allowed_statuses_canonical v : In v allowed_statuses -> canonical_spelling v = true.
Proof. simpl. intros H. repeat (destruct H as [<-|H]; [reflexivity|]). done. Qed.

Lemma truthy_str s : truthy (PStr s) = true <-> s <> "".
Proof.
  simpl. destruct (String.eqb_spec s ""); simpl; split; congruence.
Qed.

Lemma ss_for_sharp_s_id s :
  ~ In sharp_s (list_ascii_of_string s) -> ss_for_sharp_s s = s.
Proof.
  induction s as [|c s IH]; [reflexivity|]. cbn [list_ascii_of_string In ss_for_sharp_s].
  intros H. destruct (Ascii.eqb_spec c sharp_s) as [->|_]; [tauto|].
  rewrite IH; [reflexivity | tauto].
Qed.

Lemma allowed_statuses_nonempty v : In v allowed_statuses -> v <> "".
Proof. simpl. intros H ->. intuition discriminate. Qed.

(** [validate_submission_status] returns only allowed values. *)
Lemma validate_submission_status_allowed (raw : pyval) (v : string) :
  validate_submission_status raw = Ok v -> In v allowed_statuses.
Proof.
  unfold validate_submission_status.
  destruct (truthy raw); cbn [negb]; [|discriminate].
  destruct raw; try discriminate.
  destruct (upper s) as [u|]; [|discriminate].
  destruct (str_in u allowed_statuses) eqn:E; cbn [negb]; [|discriminate].
  intros [= <-]. by apply str_in_In.
Qed.

(** [validate_submission_status] returns [v] exactly on the strings that
    spell the allowed status [v] up to the case of their letters, once
    "ss" is written for each U+00DF. *)
Lemma validate_submission_status_ok_iff (raw : pyval) (v : string) :
  validate_submission_status raw = Ok v <->
  exists s, raw = PStr s /\ In v allowed_statuses
            /\ same_ignoring_case (ss_for_sharp_s s) v.
Proof.
  unfold same_ignoring_case. split.
  - intros H. pose proof (validate_submission_status_allowed _ _ H) as Hin.
    unfold validate_submission_status in H.
    destruct (truthy raw); cbn [negb] in H; [|discriminate].
    destruct raw; try discriminate.
    destruct (upper s) as [u|] eqn:Eu; [|discriminate].
    destruct (str_in u allowed_statuses); cbn [negb] in H; [|discriminate].
    injection H as ->. exists s. split; [done|]. split; [done|].
    by apply upper_spelled_iff; [apply allowed_statuses_canonical|].
  - intros (s & -> & Hin & Hcase).
    apply upper_spelled_iff in Hcase; [|by apply allowed_statuses_canonical].
    assert (Hs : truthy (PStr s) = true).
    { apply truthy_str. intros ->. cbn in Hcase. injection Hcase as <-.
      by apply allowed_statuses_nonempty in Hin. }
    unfold validate_submission_status. rewrite Hs, Hcase. cbn [negb].
    apply str_in_In in Hin. by rewrite Hin.
Qed.

(** Every spelling of an allowed status in upper and lower case letters
    is accepted. *)
Lemma validate_submission_status_ok (s v : string) :
  In v allowed_statuses -> same_ignoring_case s v ->
  validate_submission_status (PStr s) = Ok v.
Proof.
  intros Hin Hcase. unfold same_ignoring_case in Hcase.
  pose proof (upper_variant s v (allowed_statuses_canonical v Hin) Hcase) as Hup.
  assert (Hs : truthy (PStr s) = true).
  { apply truthy_str. intros ->. cbn in Hup. injection Hup as <-.
    by apply allowed_statuses_nonempty in Hin. }
  unfold validate_submission_status. rewrite Hs, Hup. cbn [negb].
  apply str_in_In in Hin. by rewrite Hin.
Qed.

(** C8: [validate_submission_status] rejects an empty or absent status as
    required; on a non-empty string it upper-cases it, rejects it with the
    list of the six allowed values unless the upper-cased string is one of
    them, and returns the upper-cased string otherwise.  Since [upper]
    turns U+00DF into "SS", it returns [v] exactly on the strings that
    spell the allowed status [v] up to the case of the letters once "ss"
    is written for each U+00DF; on strings without that letter, exactly on
    the spellings of [v] up to the case of the letters. *)
Theorem validate_submission_status_correct (raw : pyval) :
  (truthy raw = false ->
     validate_submission_status raw
     = Raise (ValidationError "submissionStatus is required" None))
  /\ (forall s, raw = PStr s -> s <> "" ->
        validate_submission_status raw
        = match upper s with
          | Some status_upper =>
              if str_in status_upper allowed_statuses then Ok status_upper
              else Raise (ValidationError
                     "Invalid status. Must be one of: SUCCESS, FAILED, PROCESSING, PENDING, REJECTED, CANCELLED"
                     None)
          | None =>
              Raise (ValidationError
                "Invalid status. Must be one of: SUCCESS, FAILED, PROCESSING, PENDING, REJECTED, CANCELLED"
                None)
          end)
  /\ (forall v, validate_submission_status raw = Ok v <->
        exists s, raw = PStr s /\ In v allowed_statuses
                  /\ same_ignoring_case (ss_for_sharp_s s) v)
  /\ (forall s v, raw = PStr s -> In v allowed_statuses -> same_ignoring_case s v ->
        validate_submission_status raw = Ok v)
  /\ (forall s v, raw = PStr s -> ~ In sharp_s (list_ascii_of_string s) ->
        validate_submission_status raw = Ok v ->
        In v allowed_statuses /\ same_ignoring_case s v).
Proof.
  split; [|split; [|split; [|split]]].
  - intros H. unfold validate_submission_status. by rewrite H.
  - intros s -> Hs. apply truthy_str in Hs.
    unfold validate_submission_status. rewrite Hs. cbv beta iota zeta delta [negb].
    destruct (upper s) as [u|]; [|reflexivity].
    destruct (str_in u allowed_statuses); reflexivity.
  - intros v. apply validate_submission_status_ok_iff.
  - intros s v -> Hin Hcase. by apply validate_submission_status_ok.
  - intros s v -> Hs H. apply validate_submission_status_ok_iff in H
      as (s' & [= <-] & Hin & Hcase).
    split; [done|]. by rewrite (ss_for_sharp_s_id s Hs) in Hcase.
Qed.

(** C8, counterexample: "succe" followed by U+00DF is accepted as
    SUCCESS, although it does not spell any of the six values up to the
    case of its letters (it has six characters).  Sent as
    [submissionStatus] of the example payload, it is answered with HTTP
    200 and stored with the status SUCCESS. *)
Lemma status_with_sharp_s_accepted :
  let s := "succe" +:+ String sharp_s EmptyString in
  validate_submission_status (PStr s) = Ok "SUCCESS"
  /\ String.length s = 6%nat
  /\ upper s = Some "SUCCESS"
  /\ (forall v, In v allowed_statuses -> ~ same_ignoring_case s v)
  /\ (let req := json_request (PDict (gst_payload s (PList []))) in
      let r := gst_return_callback (fun _ => None) req sample_oracle [] in
      snd (fst r) = 200
      /\ map status (snd r) = [PStr "SUCCESS"]).
Proof.
  cbv zeta. split; [reflexivity|]. split; [reflexivity|]. split; [reflexivity|].
  split; [|split; reflexivity].
  intros v Hin. unfold same_ignoring_case. simpl in Hin.
  repeat (destruct Hin as [<-|Hin]; [discriminate|]). destruct Hin.
Qed.
(* ================================================================== *)
(** ** Required fields                                                  *)
(* ================================================================== *)

Lemma missing_fields_dict (d : gmap string pyval) (names : list string) :
  missing_fields (PDict d) names
  = Ok (List.filter (fun f => negb (truthy (dict_get d f))) names).
Proof.
  induction names as [|f names IH]; [reflexivity|].
  cbn [missing_fields get List.filter]. unfold mbind, result_bind, bind at 1.
  rewrite IH. unfold bind. by destruct (truthy (dict_get d f)).
Qed.

(** The values that count as false: what [not data.get(field)] accepts. *)
Lemma truthy_false_iff (v : pyval) :
  truthy v = false <->
    v = PNone \/ v = PBool false \/ v = PInt 0 \/ v = PStr "" \/ v = PList []
    \/ v = PDict ∅ \/ exists f, v = PFloat f /\ PrimFloat.eqb f PrimFloat.zero = true.
Proof.
  split.
  - destruct v as [|b|z|f|s|l|d]; simpl; intros H.
    + by left.
    + subst. by right; left.
    + apply negb_false_iff, Z.eqb_eq in H. subst. by do 2 right; left.
    + apply negb_false_iff in H. do 6 right. by exists f.
    + apply negb_false_iff, String.eqb_eq in H. subst. by do 3 right; left.
    + destruct l; [|discriminate]. by do 4 right; left.
    + destruct (map_to_list d) eqn:E; [|discriminate].
      apply map_to_list_empty_iff in E. subst. by do 5 right; left.
  - intros [->|[->|[->|[->|[->|[->|(f & -> & H)]]]]]]; try reflexivity.
    simpl. by rewrite H.
Qed.

Lemma validate_required_fields_ok (d : gmap string pyval) (required_fields : list string) :
  (forall f, In f required_fields -> truthy (dict_get d f) = true) ->
  validate_required_fields (PDict d) required_fields = Ok tt.
Proof.
  intros H. unfold validate_required_fields. rewrite missing_fields_dict.
  unfold mbind, result_bind, bind.
  destruct (List.filter _ required_fields) as [|f m] eqn:E; [done|].
  assert (Hin : In f (List.filter (fun f => negb (truthy (dict_get d f))) required_fields))
    by (rewrite E; by left).
  apply filter_In in Hin as [Hf Hn]. rewrite (H f Hf) in Hn. discriminate.
Qed.

(** C3, as the code has it: [validate_required_fields] collects, in the
    order of [required_fields], every field whose value in [data] is
    absent or counts as false (null, the empty string, but also zero,
    [false], an empty array and an empty object); it passes when there is
    none and otherwise raises a validation error without field tag whose
    message is "Missing required fields: " followed by all of them joined
    by a comma and a space. *)
Theorem validate_required_fields_correct
    (d : gmap string pyval) (required_fields : list string) :
  let missing :=
    List.filter (fun f => negb (truthy (dict_get d f))) required_fields in
  validate_required_fields (PDict d) required_fields
  = match missing with
    | [] => Ok tt
    | _ => Raise (ValidationError
                    ("Missing required fields: " +:+ join ", " missing) None)
    end
  /\ (validate_required_fields (PDict d) required_fields = Ok tt <->
        forall f, In f required_fields -> truthy (dict_get d f) = true)
  /\ (forall f, In f missing <->
        In f required_fields /\ truthy (dict_get d f) = false)
  /\ (forall v, truthy v = false <->
        v = PNone \/ v = PBool false \/ v = PInt 0 \/ v = PStr "" \/ v = PList []
        \/ v = PDict ∅ \/ exists x, v = PFloat x /\ PrimFloat.eqb x PrimFloat.zero = true).
Proof.
  intros missing. unfold validate_required_fields.
  rewrite missing_fields_dict. fold missing.
  unfold mbind, result_bind, bind.
  split; [by destruct missing|]. split.
  - split.
    + intros H f Hf. destruct (truthy (dict_get d f)) eqn:E; [done|].
      assert (Hin : In f missing) by (apply filter_In; rewrite E; done).
      destruct missing; [destruct Hin | discriminate].
    + intros H. pose proof (validate_required_fields_ok d required_fields H) as Hok.
      unfold validate_required_fields in Hok. rewrite missing_fields_dict in Hok.
      exact Hok.
  - split; [|apply truthy_false_iff].
    intros f. unfold missing. rewrite filter_In, negb_true_iff. done.
Qed.

(** C3, counterexample: a required field that is present with the value
    [0] is reported as missing, although it is neither absent, null nor
    the empty string. *)
Lemma required_field_zero_reported_missing :
  let d : gmap string pyval := {[ "recordPeriod" := PInt 0 ]} in
  validate_required_fields (PDict d) ["recordPeriod"]
  = Raise (ValidationError "Missing required fields: recordPeriod" None)
  /\ ~ (exists f, In f ["recordPeriod"] /\ absent_null_or_empty d f).
Proof.
  split; [reflexivity|].
  intros (f & [<-|[]] & [H|[H|H]]); vm_compute in H; discriminate.
Qed.

(* ================================================================== *)
(** ** The two patterns                                                 *)
(* ================================================================== *)













(** C4: the UEN check accepts a well-formed UEN followed by a newline and
    returns it with the newline, although that string is not of the format
    (eight or nine digits and one upper-case letter, nothing else).  The
    three examples of the specification behave as it says. *)
Theorem validate_uen_trailing_newline :
  validate_uen (PStr ("12345678A" +:+ newline)) = Ok ("12345678A" +:+ newline)
  /\ ~ uen_format ("12345678A" +:+ newline)
  /\ validate_uen (PStr "12345678A") = Ok "12345678A"
  /\ validate_uen (PStr "1234567A")
     = Raise (ValidationError
                "Invalid UEN format. Expected format: 12345678A or 123456789A" None)
  /\ validate_uen (PStr "12345678a")
     = Raise (ValidationError
                "Invalid UEN format. Expected format: 12345678A or 123456789A" None)
  /\ validate_uen PNone = Raise (ValidationError "companyUEN is required" None).
Proof.
  split; [reflexivity|]. split; [|repeat split; reflexivity].
  intros (ds & c & Hl & _ & _ & Hc).
  apply (f_equal last) in Hl. rewrite last_snoc in Hl.
  cbn in Hl. injection Hl as <-. discriminate.
Qed.

(* ================================================================== *)
(** ** Integer literals and the tax period                              *)
(* ================================================================== *)













(** C5: the tax-period check accepts six digits followed by a newline
    and returns the seven characters, although the string is not six
    digits.  The four examples of the specification behave as it says. *)
Theorem validate_tax_period_trailing_newline :
  validate_tax_period (PStr ("202412" +:+ newline)) = Ok ("202412" +:+ newline)
  /\ String.length ("202412" +:+ newline) = 7%nat
  /\ tax_period_format ("202412" +:+ newline) = false
  /\ validate_tax_period (PStr "202413")
     = Raise (ValidationError "Invalid month in taxPeriod" None)
  /\ validate_tax_period (PStr "202412") = Ok "202412"
  /\ validate_tax_period (PStr "189912")
     = Raise (ValidationError "Invalid year in taxPeriod" None)
  /\ validate_tax_period (PStr "209912") = Ok "209912"
  /\ validate_tax_period PNone = Raise (ValidationError "taxPeriod is required" None).
Proof. repeat split; reflexivity. Qed.

(* ================================================================== *)
(** ** The log store                                                    *)
(* ================================================================== *)

Lemma length_last_n {A} (n : nat) (l : list A) :
  List.length (last_n n l) = Nat.min n (List.length l).
Proof. unfold last_n. rewrite length_drop. lia. Qed.

Lemma log_callback_store req now endpoint callback_data callback_logs :
  snd (log_callback req now endpoint callback_data callback_logs)
  = let l := (callback_logs ++ [make_log_entry req now endpoint callback_data])%list in
    if (MAX_LOGS <? List.length l)%nat then tail l else l.
Proof. reflexivity. Qed.

(** Appending to the last [n] of a history and dropping the head when the
    result is longer than [n] gives the last [n] of the longer history. *)
Lemma append_last_n {A} (n : nat) (acc : list A) (e : A) :
  (0 < n)%nat ->
  (let l := (last_n n acc ++ [e])%list in
   if (n <? List.length l)%nat then tail l else l)
  = last_n n (acc ++ [e]).
Proof.
  intros Hn. cbv zeta. rewrite length_app, length_last_n. cbn [List.length].
  unfold last_n. rewrite length_app. cbn [List.length].
  destruct (Nat.ltb_spec n (Nat.min n (List.length acc) + 1)) as [H|H].
  - assert (Hlen : (n <= List.length acc)%nat) by lia.
    change (tail ?l) with (drop 1 l).
    rewrite !drop_app_le by (rewrite ?length_drop; lia).
    rewrite drop_drop. do 2 f_equal. lia.
  - replace (List.length acc - n)%nat with 0%nat by lia.
    replace (List.length acc + 1 - n)%nat with 0%nat by lia.
    by rewrite !drop_0.
Qed.

Lemma run_op_last_n (acc : list log_entry) (op : store_op) :
  run_op (last_n MAX_LOGS acc) op = last_n MAX_LOGS (accept acc op).
Proof.
  destruct op as [req now endpoint callback_data | now]; [|reflexivity].
  cbn [run_op accept]. rewrite log_callback_store.
  apply append_last_n. unfold MAX_LOGS. lia.
Qed.

Lemma run_last_n (ops : list store_op) : forall acc,
  run ops (last_n MAX_LOGS acc) = last_n MAX_LOGS (fold_left accept ops acc).
Proof.
  induction ops as [|op ops IH]; intros acc; [reflexivity|].
  cbn [run fold_left]. rewrite run_op_last_n. apply IH.
Qed.

Lemma accepted_appends (args : list append_args) : forall acc,
  fold_left accept (map append_op args) acc = (acc ++ map entry_of args)%list.
Proof.
  induction args as [|[[[req now] endpoint] callback_data] args IH]; intros acc.
  - cbn. by rewrite app_nil_r.
  - cbn [map fold_left append_op accept entry_of]. rewrite IH.
    by rewrite <- app_assoc.
Qed.

(** C1: from the empty store, after any sequence of appends and clears
    the store holds at most [MAX_LOGS] = 200 records, and it holds the
    last 200 of the records accepted since the last clear, in the order
    they were accepted.  An append to a store that is not full adds the
    record at the end; an append to a full store removes exactly the
    record at index 0 and adds the new one at the end.  After 201 appends
    the store holds exactly 200 records: those of the 2nd to the 201st
    append in order, so the first is gone and the second is the oldest. *)
Theorem store_bounded_fifo :
  MAX_LOGS = 200%nat
  /\ (forall ops,
        (List.length (run ops []) <= MAX_LOGS)%nat
        /\ run ops [] = last_n MAX_LOGS (accepted ops))
  /\ (forall req now endpoint callback_data callback_logs,
        (List.length callback_logs < MAX_LOGS)%nat ->
        snd (log_callback req now endpoint callback_data callback_logs)
        = (callback_logs ++ [make_log_entry req now endpoint callback_data])%list)
  /\ (forall req now endpoint callback_data callback_logs,
        List.length callback_logs = MAX_LOGS ->
        snd (log_callback req now endpoint callback_data callback_logs)
        = (tail callback_logs ++ [make_log_entry req now endpoint callback_data])%list)
  /\ (forall args : list append_args,
        List.length args = 201%nat ->
        run (map append_op args) [] = drop 1 (map entry_of args)
        /\ List.length (run (map append_op args) []) = 200%nat
        /\ head (run (map append_op args) []) = entry_of <$> args !! 1%nat).
Proof.
  assert (Hrun : forall ops, run ops [] = last_n MAX_LOGS (accepted ops)).
  { intros ops. apply (run_last_n ops []). }
  split; [reflexivity|]. split; [|split; [|split]].
  - intros ops. split; [|apply Hrun].
    rewrite Hrun, length_last_n. lia.
  - intros req now endpoint callback_data callback_logs H.
    rewrite log_callback_store. cbv zeta. rewrite length_app. cbn [List.length].
    destruct (Nat.ltb_spec MAX_LOGS (List.length callback_logs + 1)); [lia|done].
  - intros req now endpoint callback_data callback_logs H.
    rewrite log_callback_store. cbv zeta. rewrite length_app. cbn [List.length].
    destruct (Nat.ltb_spec MAX_LOGS (List.length callback_logs + 1)); [|lia].
    destruct callback_logs; [discriminate | reflexivity].
  - intros args Hlen.
    assert (Hr : run (map append_op args) [] = drop 1 (map entry_of args)).
    { rewrite Hrun. unfold accepted. rewrite accepted_appends. cbn [app].
      unfold last_n. rewrite length_map, Hlen. reflexivity. }
    rewrite Hr. split; [done|]. split.
    + rewrite length_drop, length_map, Hlen. reflexivity.
    + destruct args as [|a [|b args]]; [discriminate..|]. reflexivity.
Qed.

(** C9: with [N] records in the store, [DELETE /logs] answers 200 with
    the message "Cleared N callback logs" and leaves the store empty; a
    [GET /logs] that follows, whatever its [limit], returns no record. *)
Theorem clear_logs_correct (now : oracle) (callback_logs : list log_entry) :
  let r := clear_logs now callback_logs in
  snd r = []
  /\ snd (fst r) = 200
  /\ fst (fst r) !! "message"
     = Some (PStr ("Cleared " +:+ pretty (List.length callback_logs) +:+ " callback logs"))
  /\ forall req,
       get_callback_logs req (snd r)
       = ({| total_callbacks := 0; returned_logs := 0; logs := [] |}, 200).
Proof. cbv zeta. repeat split. Qed.

(** The number in the message of [clear_logs] is written in decimal. *)
Example clear_logs_message_60 (now : oracle) (e : log_entry) :
  fst (fst (clear_logs now (replicate 60 e))) !! "message"
  = Some (PStr "Cleared 60 callback logs").
Proof. reflexivity. Qed.

Lemma slice_from_neg {A} (n : nat) (l : list A) :
  (0 < n)%nat -> slice_from (- Z.of_nat n) l = last_n n l.
Proof.
  intros Hn. unfold slice_from, last_n.
  destruct (Z.ltb_spec (- Z.of_nat n) 0); [|lia]. f_equal. lia.
Qed.

Lemma slice_from_nonneg {A} (z : Z) (l : list A) :
  0 <= z -> slice_from z l = drop (Z.to_nat z) l.
Proof.
  intros Hz. unfold slice_from. destruct (Z.ltb_spec z 0); [lia|].
  destruct (Z.le_ge_cases z (Z.of_nat (List.length l))) as [H'|H'].
  - by rewrite Z.min_l.
  - rewrite Z.min_r, Nat2Z.id by lia. rewrite drop_all.
    symmetry. apply drop_ge. lia.
Qed.

(** [GET /logs] with a limit of at least one (after the default): the
    last [min limit 50] records, oldest first. *)
Lemma get_callback_logs_positive (req : request) (callback_logs : list log_entry) :
  1 <= limit_arg req ->
  logs (fst (get_callback_logs req callback_logs))
  = last_n (Z.to_nat (Z.min (limit_arg req) 50)) callback_logs
  /\ (List.length (logs (fst (get_callback_logs req callback_logs))) <= 50)%nat.
Proof.
  intros H. unfold get_callback_logs. cbn [fst logs].
  assert (E : logs (fst (get_callback_logs req callback_logs))
              = last_n (Z.to_nat (Z.min (limit_arg req) 50)) callback_logs).
  { unfold get_callback_logs. cbn [fst logs]. destruct callback_logs as [|e l] eqn:El.
    - reflexivity.
    - rewrite <- (Z2Nat.id (Z.min (limit_arg req) 50)) at 1 by lia.
      apply slice_from_neg. lia. }
  unfold get_callback_logs in E. cbn [fst logs] in E. rewrite E.
  split; [done|]. rewrite length_last_n. lia.
Qed.

Lemma get_callback_logs_default (callback_logs : list log_entry) :
  logs (fst (get_callback_logs (logs_request None) callback_logs))
  = last_n 10 callback_logs.
Proof.
  destruct (get_callback_logs_positive (logs_request None) callback_logs) as [E _];
    [by vm_compute|].
  exact E.
Qed.

(** C6: [GET /logs?limit=0] returns the whole store, whatever its size:
    [callback_logs[-0:]] is the full list.  With 51 records stored it
    returns 51, more than the documented maximum of 50.  A negative limit
    likewise returns all but the first records.  Limits above 50 and the
    default behave as documented. *)
Theorem get_callback_logs_limit_zero :
  (forall callback_logs,
     get_callback_logs (logs_request (Some "0")) callback_logs
     = ({| total_callbacks := List.length callback_logs;
           returned_logs := List.length callback_logs;
           logs := callback_logs |}, 200))
  /\ (forall e : log_entry,
        returned_logs (fst (get_callback_logs (logs_request (Some "0")) (replicate 51 e)))
        = 51%nat)
  /\ (forall callback_logs,
        logs (fst (get_callback_logs (logs_request (Some "-5")) callback_logs))
        = drop 5 callback_logs)
  /\ (forall callback_logs,
        logs (fst (get_callback_logs (logs_request (Some "500")) callback_logs))
        = last_n 50 callback_logs)
  /\ (forall callback_logs,
        logs (fst (get_callback_logs (logs_request None) callback_logs))
        = last_n 10 callback_logs).
Proof.
  split; [|split; [|split; [|split]]].
  - intros [|e l]; reflexivity.
  - intros e. reflexivity.
  - intros [|e l]; [reflexivity|].
    unfold get_callback_logs. cbn [fst logs].
    change (Z.min (limit_arg (logs_request (Some "-5"))) 50) with (-5).
    apply (slice_from_nonneg 5). lia.
  - intros l.
    destruct (get_callback_logs_positive (logs_request (Some "500")) l) as [E _];
      [by vm_compute|].
    exact E.
  - apply get_callback_logs_default.
Qed.

(* ================================================================== *)
(** ** The callback endpoints                                           *)
(* ================================================================== *)

Section Handlers.

Variable float_of_str : string -> option PrimFloat.float.
Variable format : pyval -> string.
Variable req : request.
Variable now : oracle.

Lemma create_error_response_status e submission_id code :
  fst (create_error_response now e submission_id code) !! "status" = Some (PStr "error").
Proof.
  unfold create_error_response. cbn [fst].
  destruct e as [m [f|]| | | | |]; try reflexivity.
  destruct (String.eqb f ""); reflexivity.
Qed.

Lemma on_error_code e submission_id :
  snd (on_error now e submission_id) = if is_validation_error e then 400 else 500.
Proof. unfold on_error. by destruct (is_validation_error e). Qed.

Lemma on_error_status e submission_id :
  fst (on_error now e submission_id) !! "status" = Some (PStr "error").
Proof.
  unfold on_error. destruct (is_validation_error e); apply create_error_response_status.
Qed.

Lemma before_append_lift {A} (r : result A) (k : A -> M (gmap string pyval)) :
  (forall a, before_append req now (k a)) -> before_append req now (lift r ≫= k).
Proof.
  intros Hk callback_logs. unfold mbind, M_bind, lift.
  destruct r as [a|e]; [apply Hk | by left].
Qed.

Lemma before_append_log endpoint callback_data (k : string -> M (gmap string pyval)) :
  (forall request_id, after_append (k request_id)) ->
  before_append req now (log_callback req now endpoint callback_data ≫= k).
Proof.
  intros Hk callback_logs. unfold mbind, M_bind.
  destruct (log_callback req now endpoint callback_data callback_logs)
    as [[request_id|e] callback_logs'] eqn:E; [|discriminate].
  assert (E' : callback_logs'
               = snd (log_callback req now endpoint callback_data callback_logs))
    by (by rewrite E).
  destruct (Hk request_id callback_logs') as [Hs Hr].
  destruct (k request_id callback_logs') as [[body|e] l]; cbn [fst snd] in *; subst l.
  - split; [done|]. by exists endpoint, callback_data.
  - right. split; [done|]. by exists endpoint, callback_data.
Qed.

Lemma after_append_lift {A} (r : result A) (k : A -> M (gmap string pyval)) :
  (forall e, r = Raise e -> is_validation_error e = false) ->
  (forall a, after_append (k a)) -> after_append (lift r ≫= k).
Proof.
  intros Hr Hk callback_logs. unfold mbind, M_bind, lift.
  destruct r as [a|e]; [apply Hk|]. cbn [fst snd]. split; [done|]. by apply Hr.
Qed.

Lemma after_append_ret message submission_id request_id :
  after_append (mret (create_success_response now message submission_id request_id)).
Proof. intros callback_logs. split; reflexivity. Qed.

Lemma join_val_raise sep v e : join_val sep v = Raise e -> e = TypeError.
Proof.
  destruct v as [| | | | |l|]; cbn; try congruence.
  destruct (all_str l); congruence.
Qed.

Lemma log_errors_raise errors e : log_errors errors = Raise e -> e = TypeError.
Proof.
  unfold log_errors. destruct (truthy errors); [|discriminate].
  unfold mbind, result_bind, bind.
  destruct (join_val ", " errors) eqn:E; [discriminate|].
  intros [= <-]. by apply join_val_raise in E.
Qed.

Lemma get_raise v k e : get v k = Raise e -> e = AttributeError.
Proof. destruct v; cbn; congruence. Qed.

(** The frame: a body that appends at most once, and only after every
    check that can reject, gives one of the four outcomes. *)
Lemma callback_outcome required_fields body callback_logs :
  (forall data submission_id, before_append req now (body data submission_id)) ->
  outcome req now callback_logs (callback req now required_fields body callback_logs).
Proof.
  intros Hbody. unfold callback.
  destruct (_ ≫= _) as [[data submission_id]|e].
  - specialize (Hbody data submission_id callback_logs).
    destruct (body data submission_id callback_logs) as [[resp|e] l].
    + destruct Hbody as [Hs (endpoint & callback_data & ->)]. by apply Accepted.
    + pose proof (on_error_code e submission_id) as Hc.
      pose proof (on_error_status e submission_id) as Hs.
      destruct (on_error now e submission_id) as [resp code]. cbn [fst snd] in *.
      destruct Hbody as [-> | [He (endpoint & callback_data & ->)]].
      * subst code. destruct (is_validation_error e); [by apply Rejected | by apply Failed].
      * subst code. rewrite He. by apply FailedAfterAppend.
  - pose proof (on_error_code e PNone) as Hc.
    pose proof (on_error_status e PNone) as Hs.
    destruct (on_error now e PNone) as [resp code]. cbn [fst snd] in *.
    subst code. destruct (is_validation_error e); [by apply Rejected | by apply Failed].
Qed.

(** Closes [before_append] goals by walking down a handler body. *)
Ltac handler_body :=
  intros;
  repeat first
    [ apply before_append_lift; intros
    | apply before_append_log; intros
    | apply after_append_ret
    | apply after_append_lift;
      [ let e := fresh "e" in let H := fresh "H" in
        intros e H;
        repeat match type of H with
               | (if ?c then _ else _) = _ => destruct c
               end;
        try discriminate H;
        unfold mbind, result_bind, bind in H;
        repeat match type of H with
               | match ?r with Ok _ => _ | Raise _ => _ end = _ =>
                   let E := fresh "E" in destruct r eqn:E
               end;
        try discriminate H; injection H as <-;
        match goal with
        | E : log_errors _ = Raise _ |- _ => apply log_errors_raise in E; by subst
        | E : get _ _ = Raise _ |- _ => apply get_raise in E; by subst
        end
      | intros ] ].

Lemma gst_return_outcome callback_logs :
  outcome req now callback_logs (gst_return_callback float_of_str req now callback_logs).
Proof. apply callback_outcome. handler_body. Qed.

Lemma form_cs_outcome callback_logs :
  outcome req now callback_logs (form_cs_callback format req now callback_logs).
Proof. apply callback_outcome. handler_body. Qed.

Lemma commission_records_outcome callback_logs :
  outcome req now callback_logs
    (commission_records_callback float_of_str format req now callback_logs).
Proof. apply callback_outcome. handler_body. Qed.

Lemma donation_records_outcome callback_logs :
  outcome req now callback_logs
    (donation_records_callback float_of_str format req now callback_logs).
Proof. apply callback_outcome. handler_body. Qed.

Lemma e_stamping_outcome callback_logs :
  outcome req now callback_logs
    (e_stamping_callback float_of_str format req now callback_logs).
Proof. apply callback_outcome. handler_body. Qed.

(** A rejection (HTTP 400) leaves the store as it was, and so does any
    answer other than 200 and 500. *)
Lemma outcome_rejected callback_logs r :
  outcome req now callback_logs r -> snd (fst r) = 400 ->
  snd r = callback_logs /\ fst (fst r) !! "status" = Some (PStr "error").
Proof. intros [] Hc; cbn in *; try discriminate Hc; done. Qed.

End Handlers.

(** Validation failures are atomic on every callback endpoint: an answer
    with HTTP 400 carries the status "error" and leaves the store exactly
    as it was. *)
Lemma rejection_leaves_store float_of_str format req now callback_logs :
  let handlers :=
    [gst_return_callback float_of_str req now;
     form_cs_callback format req now;
     commission_records_callback float_of_str format req now;
     donation_records_callback float_of_str format req now;
     e_stamping_callback float_of_str format req now] in
  forall h, In h handlers ->
    outcome req now callback_logs (h callback_logs)
    /\ (snd (fst (h callback_logs)) = 400 ->
        snd (h callback_logs) = callback_logs
        /\ fst (fst (h callback_logs)) !! "status" = Some (PStr "error")).
Proof.
  intros handlers h Hh.
  assert (Ho : outcome req now callback_logs (h callback_logs)).
  { cbn in Hh. destruct Hh as [<-|[<-|[<-|[<-|[<-|[]]]]]].
    - apply gst_return_outcome.
    - apply form_cs_outcome.
    - apply commission_records_outcome.
    - apply donation_records_outcome.
    - apply e_stamping_outcome. }
  split; [done|]. intros Hc. exact (outcome_rejected req now callback_logs _ Ho Hc).
Qed.

(** C7: a GST callback with status FAILED whose [errors] list holds a
    value that is not a string passes validation and is appended to the
    store; joining the errors for the log line then raises, and the
    endpoint answers HTTP 500 with status "error".  The submission is
    recorded although the caller is told it failed. *)
Theorem gst_failed_errors_recorded_then_500
    (float_of_str : string -> option PrimFloat.float) (now : oracle)
    (callback_logs : list log_entry) :
  let req := json_request (PDict (gst_payload "FAILED" (PList [PInt 1]))) in
  let r := gst_return_callback float_of_str req now callback_logs in
  snd (fst r) = 500
  /\ fst (fst r) !! "status" = Some (PStr "error")
  /\ fst (fst r) !! "message" = Some (PStr "Error processing callback")
  /\ (exists callback_data,
        snd r = snd (log_callback req now "GST-RETURN" callback_data callback_logs)
        /\ callback_data !! "submissionStatus" = Some (PStr "FAILED")
        /\ callback_data !! "errors" = Some (PList [PInt 1]))
  /\ (callback_logs = [] -> List.length (snd r) = 1%nat).
Proof.
  cbv zeta. split; [reflexivity|]. split; [reflexivity|]. split; [reflexivity|].
  split.
  - eexists. split; [reflexivity|]. split; reflexivity.
  - intros ->. reflexivity.
Qed.

(* ================================================================== *)
(** ** Acceptance of a well-formed GST callback                         *)
(* ================================================================== *)


Lemma bind_log_callback {B} req now endpoint callback_data (k : string -> M B) callback_logs :
  (log_callback req now endpoint callback_data ≫= k) callback_logs
  = k (str_take 8 (uuid4_log now))
      (snd (log_callback req now endpoint callback_data callback_logs)).
Proof. reflexivity. Qed.















(* ================================================================== *)
(** ** Optional counts: [totalRecords] and [totalDonations]             *)
(* ================================================================== *)



Section Accepted.

Variable req : request.
Variable now : oracle.


End Accepted.











(* ================================================================== *)
(** * Further properties of the validators                              *)
(* ================================================================== *)

(** [validate_form_type] takes any spelling of F5 and F8 up to the case
    of the letter and returns it in upper case; an empty or absent value
    is reported as required, any other string as invalid, and nothing else
    is accepted. *)
Theorem validate_form_type_accepts_exactly (raw : pyval) :
  (forall v, validate_form_type raw = Ok v <->
     exists s, raw = PStr s /\ (v = "F5" \/ v = "F8") /\ same_ignoring_case s v)
  /\ (truthy raw = false ->
      validate_form_type raw = Raise (ValidationError "formType is required" None))
  /\ (forall s, raw = PStr s -> s <> "" ->
      upper s <> Some "F5" -> upper s <> Some "F8" ->
      validate_form_type raw
      = Raise (ValidationError "Invalid formType. Must be F5 or F8" None)).
Proof.
  split; [|split].
  - intros v. unfold validate_form_type, same_ignoring_case. split.
    + destruct (truthy raw); cbn [negb]; [|discriminate].
      destruct raw; try discriminate.
      destruct (upper s) as [u|] eqn:Eu; [|discriminate].
      destruct (str_in u ["F5"; "F8"]) eqn:E; cbn [negb]; [|discriminate].
      intros [= <-]. exists s. split; [done|].
      apply str_in_In in E. cbn in E.
      assert (Hv : u = "F5" \/ u = "F8") by intuition.
      split; [done|].
      assert (Hc : canonical_spelling u = true) by (by destruct Hv as [-> | ->]).
      apply (upper_spelled_iff s u Hc) in Eu.
      (* neither value holds "ss": the string has no U+00DF *)
      assert (Hs : ss_for_sharp_s s = s).
      { destruct s as [|c1 [|c2 [|c3 s]]]; cbn [ss_for_sharp_s] in *;
          repeat match goal with
          | H : context [Ascii.eqb ?c sharp_s] |- _ =>
              destruct (Ascii.eqb c sharp_s)
          | |- context [Ascii.eqb ?c sharp_s] => destruct (Ascii.eqb c sharp_s)
          end;
          try reflexivity; destruct Hv as [-> | ->]; discriminate Eu. }
      by rewrite Hs in Eu.
    + intros (s & -> & Hv & Hcase).
      assert (Hup : upper s = Some v).
      { apply upper_variant; [by destruct Hv as [-> | ->] | done]. }
      assert (Hs : truthy (PStr s) = true).
      { apply truthy_str. intros ->. cbn in Hup. destruct Hv; congruence. }
      rewrite Hs. cbn [negb]. rewrite Hup. by destruct Hv as [-> | ->].
  - intros H. unfold validate_form_type. by rewrite H.
  - intros s -> Hs H5 H8. apply truthy_str in Hs.
    unfold validate_form_type. rewrite Hs. cbn [negb].
    destruct (upper s) as [u|]; [|reflexivity].
    destruct (str_in u ["F5"; "F8"]) eqn:E; [|reflexivity].
    apply str_in_In in E. cbn in E. intuition congruence.
Qed.
(* ================================================================== *)
(** * The client address                                                *)
(* ================================================================== *)









(** Two requests: the first element of X-Forwarded-For is taken without
    its blanks, the no-break space among them; when it is nothing but
    blanks, the address is the empty string. *)
Lemma get_client_ip_forwarded :
  get_client_ip (forwarded_request (" 203.0.113.7" +:+ String nbsp ", 10.0.0.2"))
  = "203.0.113.7"
  /\ get_client_ip (forwarded_request (String nbsp ",10.0.0.2")) = "".
Proof. split; reflexivity. Qed.
(* ================================================================== *)
(** * What a callback request does to the store                         *)
(* ================================================================== *)

Section StoreEffect.

Variable req : request.
Variable now : oracle.

Lemma appends_record_lift {A} endpoint P submission_id (r : result A)
    (k : A -> M (gmap string pyval)) :
  (forall e, r = Raise e -> no_field e) ->
  (forall a, r = Ok a -> appends_record req now endpoint P submission_id (k a)) ->
  appends_record req now endpoint P submission_id (lift r ≫= k).
Proof.
  intros Hr Hk callback_logs. unfold mbind, M_bind, lift.
  destruct r as [a|e]; [by apply Hk|]. split; [by apply Hr | by left].
Qed.

Lemma appends_record_log endpoint (P : gmap string pyval -> Prop) submission_id
    callback_data (k : string -> M (gmap string pyval)) :
  P callback_data ->
  answers now submission_id (str_take 8 (uuid4_log now)) (k (str_take 8 (uuid4_log now))) ->
  appends_record req now endpoint P submission_id
    (log_callback req now endpoint callback_data ≫= k).
Proof.
  intros HP Hk callback_logs. rewrite bind_log_callback.
  destruct (Hk (snd (log_callback req now endpoint callback_data callback_logs)))
    as [Hs Hb].
  destruct (k _ _) as [[body|e] l]; cbn [fst snd] in *; subst l.
  - destruct Hb as [message ->]. by exists callback_data, message.
  - split; [done|]. right. by exists callback_data.
Qed.

Lemma answers_message submission_id request_id (r : result string) :
  (forall e, r = Raise e -> no_field e) ->
  answers now submission_id request_id
    (lift r ≫= fun message =>
       mret (create_success_response now message submission_id request_id)).
Proof.
  intros Hr callback_logs. unfold mbind, M_bind, lift. destruct r as [message|e].
  - split; [reflexivity|]. by exists message.
  - split; [reflexivity|]. by apply Hr.
Qed.

Lemma status_step data c :
  subscript data "submissionStatus" ≫= validate_submission_status = Ok c ->
  In c allowed_statuses.
Proof.
  unfold mbind, result_bind, bind. destruct (subscript data "submissionStatus"); [|discriminate].
  intros H. apply validate_submission_status_ok_iff in H as (s & _ & Hin & _). exact Hin.
Qed.

Lemma missing_fields_raise data required_fields e :
  missing_fields data required_fields = Raise e -> e = AttributeError.
Proof.
  induction required_fields as [|f l IH]; [discriminate|].
  cbn [missing_fields]. unfold mbind, result_bind, bind.
  destruct (get data f) eqn:E; [|intros [= <-]; by apply get_raise in E].
  destruct (missing_fields data l); [discriminate|]. intros [= <-]. by apply IH.
Qed.

Lemma validate_required_fields_no_field data required_fields e :
  validate_required_fields data required_fields = Raise e -> no_field e.
Proof.
  unfold validate_required_fields, mbind, result_bind, bind.
  destruct (missing_fields data required_fields) as [[|f l]|e'] eqn:E.
  - discriminate.
  - by intros [= <-].
  - intros [= <-]. by rewrite (missing_fields_raise _ _ _ E).
Qed.

Lemma preamble_no_field required_fields e :
  preamble req required_fields = Raise e -> no_field e.
Proof.
  unfold preamble, validate_json_payload, mbind, result_bind, bind at 1.
  destruct (negb (req_is_json req)); [by intros [= <-]|].
  destruct (req_get_json req) as [data|text]; [|by intros [= <-]].
  assert (H : forall data', bind (validate_required_fields data' required_fields)
                (fun _ => bind (subscript data' "submissionId")
                            (fun submission_id => Ok (data', submission_id)))
              = Raise e -> no_field e).
  { intros data'. unfold bind.
    destruct (validate_required_fields data' required_fields) eqn:E;
      [|intros [= <-]; by apply validate_required_fields_no_field in E].
    unfold subscript, getitem. repeat case_match; intros; simplify_eq; exact I. }
  destruct data; first [by intros [= <-] | apply H].
Qed.

Lemma preamble_ok required_fields data submission_id :
  preamble req required_fields = Ok (data, submission_id) ->
  req_is_json req = true
  /\ req_get_json req = inl data
  /\ validate_required_fields data required_fields = Ok tt
  /\ subscript data "submissionId" = Ok submission_id.
Proof.
  unfold preamble, validate_json_payload, mbind, result_bind.
  destruct (req_is_json req); cbn [negb]; [|discriminate].
  destruct (req_get_json req) as [d|text]; [|discriminate].
  destruct d; cbn [bind]; try discriminate;
    (destruct (validate_required_fields _ required_fields) as [[]|] eqn:E1; cbn [bind];
     [|discriminate]);
    (destruct (subscript _ "submissionId") eqn:E2; cbn [bind]; [|discriminate]);
    intros [= <- <-]; done.
Qed.

Lemma callback_unfold required_fields body callback_logs :
  callback req now required_fields body callback_logs
  = match preamble req required_fields with
    | Raise e => (on_error now e PNone, callback_logs)
    | Ok (data, submission_id) =>
        match body data submission_id callback_logs with
        | (Ok response, callback_logs) => ((response, 200), callback_logs)
        | (Raise e, callback_logs) => (on_error now e submission_id, callback_logs)
        end
    end.
Proof. reflexivity. Qed.

Lemma on_error_not_200 e submission_id : snd (on_error now e submission_id) <> 200.
Proof. rewrite on_error_code. destruct (is_validation_error e); discriminate. Qed.

(** The frame, seen from the store and from the answer. *)
Lemma callback_store_effect endpoint (P : pyval -> gmap string pyval -> Prop)
    required_fields body callback_logs :
  (forall data submission_id,
     appends_record req now endpoint (P submission_id) submission_id
       (body data submission_id)) ->
  let r := callback req now required_fields body callback_logs in
  (snd r = callback_logs
   \/ exists submission_id callback_data,
        P submission_id callback_data
        /\ snd r = snd (log_callback req now endpoint callback_data callback_logs))
  /\ (snd (fst r) = 200 ->
      exists data submission_id callback_data message,
        req_get_json req = inl data
        /\ validate_required_fields data required_fields = Ok tt
        /\ subscript data "submissionId" = Ok submission_id
        /\ P submission_id callback_data
        /\ snd r = snd (log_callback req now endpoint callback_data callback_logs)
        /\ fst (fst r) = create_success_response now message submission_id
                           (str_take 8 (uuid4_log now)))
  /\ (snd (fst r) <> 200 ->
      exists e submission_id, no_field e /\ fst r = on_error now e submission_id).
Proof.
  intros Hbody. cbv zeta. rewrite callback_unfold.
  destruct (preamble req required_fields) as [[data sid]|e] eqn:Epre.
  - apply preamble_ok in Epre as (_ & Hjson & Hreq & Hsid).
    specialize (Hbody data sid callback_logs).
    destruct (body data sid callback_logs) as [[resp|e] l]; cbn [fst snd].
    + destruct Hbody as (cd & message & HP & -> & ->). split; [|split].
      * right. by exists sid, cd.
      * intros _. by exists data, sid, cd, message.
      * intros H. by destruct H.
    + destruct Hbody as [Hnf Hs]. split; [|split].
      * destruct Hs as [-> | (cd & HP & ->)]; [by left|]. right. by exists sid, cd.
      * intros H. by apply on_error_not_200 in H.
      * intros _. by exists e, sid.
  - cbn [fst snd]. split; [by left|]. split.
    + intros H. by apply on_error_not_200 in H.
    + intros _. exists e, PNone. split; [|done]. by apply preamble_no_field in Epre.
Qed.

End StoreEffect.

(** Closes the side condition of a lifted step: what it raises names no
    field. *)
Ltac raises_no_field :=
  let e := fresh "e" in
  let H := fresh "H" in
  intros e H;
  unfold validate_submission_status, validate_form_type, validate_uen,
    validate_tax_period, tax_period_int, optional_float, optional_int, log_errors,
    join_val, subscript, getitem, get, get_default in H;
  unfold float, int, float_of_int, float_trunc in H;
  unfold mbind, result_bind, bind in H;
  repeat case_match; simplify_eq; exact I.

(** Walks down a handler body for [appends_record]. *)
Ltac store_effect :=
  intros;
  repeat (apply appends_record_lift; [raises_no_field | intros ? ?]);
  apply appends_record_log;
  [ split;
    [ reflexivity
    | match goal with
      | H : subscript _ "submissionStatus" ≫= validate_submission_status = Ok ?c |- _ =>
          exists c; split; [exact (status_step _ _ H) | reflexivity]
      end ]
  | apply answers_message; raises_no_field ].

Lemma handler_store_effect float_of_str format k req now callback_logs :
  let r := handler float_of_str format k req now callback_logs in
  (snd r = callback_logs
   \/ exists submission_id callback_data,
        stored_data submission_id callback_data
        /\ snd r = snd (log_callback req now (tag k) callback_data callback_logs))
  /\ (snd (fst r) = 200 ->
      exists data submission_id callback_data message,
        req_get_json req = inl data
        /\ validate_required_fields data (required k) = Ok tt
        /\ subscript data "submissionId" = Ok submission_id
        /\ stored_data submission_id callback_data
        /\ snd r = snd (log_callback req now (tag k) callback_data callback_logs)
        /\ fst (fst r) = create_success_response now message submission_id
                           (str_take 8 (uuid4_log now)))
  /\ (snd (fst r) <> 200 ->
      exists e submission_id, no_field e /\ fst r = on_error now e submission_id).
Proof.
  destruct k; cbn [handler tag required];
    apply (callback_store_effect req now _ stored_data); store_effect.
Qed.

Lemma log_callback_last req now endpoint callback_data callback_logs :
  last (snd (log_callback req now endpoint callback_data callback_logs))
  = Some (make_log_entry req now endpoint callback_data).
Proof.
  rewrite log_callback_store. cbv zeta.
  destruct (MAX_LOGS <? _)%nat eqn:E; [|apply last_snoc].
  destruct callback_logs as [|x l]; [discriminate E|]. cbn [app tail]. apply last_snoc.
Qed.

Lemma log_callback_length req now endpoint callback_data callback_logs :
  (List.length callback_logs <= MAX_LOGS)%nat ->
  (List.length (snd (log_callback req now endpoint callback_data callback_logs))
   <= MAX_LOGS)%nat.
Proof.
  intros H. rewrite log_callback_store. cbv zeta.
  destruct (Nat.ltb_spec MAX_LOGS (List.length (callback_logs ++ [make_log_entry req now endpoint callback_data]))) as [H'|H']; [|exact H'].
  rewrite length_app in H'. cbn [List.length] in H'.
  destruct callback_logs as [|x l]; cbn [app tail List.length] in *; [lia|].
  rewrite length_app. cbn [List.length]. lia.
Qed.

Lemma log_callback_Forall (P : log_entry -> Prop) req now endpoint callback_data callback_logs :
  Forall P callback_logs -> P (make_log_entry req now endpoint callback_data) ->
  Forall P (snd (log_callback req now endpoint callback_data callback_logs)).
Proof.
  intros Hl He. rewrite log_callback_store. cbv zeta.
  assert (Hall : Forall P (callback_logs ++ [make_log_entry req now endpoint callback_data])).
  { apply Forall_app. split; [done|]. by constructor. }
  destruct (MAX_LOGS <? _)%nat; [|exact Hall].
  destruct (callback_logs ++ _)%list as [|x l]; [constructor|].
  cbn [tail]. by inversion Hall.
Qed.

Lemma required_fields_dict data field rest :
  validate_required_fields data (field :: rest) = Ok tt -> exists d, data = PDict d.
Proof.
  destruct data as [| | | | | |d]; try discriminate. by exists d.
Qed.

(** An accepted callback and its record: when an endpoint answers 200,
    the body is a JSON object, the store has gained (as its last element,
    after the eviction of the oldest when it was full) one record under
    the tag of the endpoint, whose status is one of the six canonical
    strings and whose data carry the submission id of the payload; the
    answer says "received" and gives back that submission id and the
    request id of the record. *)
Theorem accepted_answer_matches_record
    (float_of_str : string -> option PrimFloat.float) (format : pyval -> string)
    (k : endpoint_kind) (req : request) (now : oracle) (callback_logs : list log_entry) :
  let r := handler float_of_str format k req now callback_logs in
  snd (fst r) = 200 ->
  exists d submission_id callback_data c,
    let record := make_log_entry req now (tag k) callback_data in
    req_get_json req = inl (PDict d)
    /\ d !! "submissionId" = Some submission_id
    /\ snd r = snd (log_callback req now (tag k) callback_data callback_logs)
    /\ last (snd r) = Some record
    /\ endpoint record = tag k
    /\ In c allowed_statuses
    /\ status record = PStr c
    /\ callback_data !! "submissionId" = Some submission_id
    /\ fst (fst r) !! "status" = Some (PStr "received")
    /\ fst (fst r) !! "requestId" = Some (PStr (requestId record))
    /\ fst (fst r) !! "submissionId" = Some submission_id.
Proof.
  intros r Hcode.
  destruct (handler_store_effect float_of_str format k req now callback_logs) as (_ & H & _).
  destruct (H Hcode) as (data & sid & cd & message & Hjson & Hreq & Hsid & [Hcd (c & Hc & Hst)] & Hstore & Hresp).
  assert (Hd : exists d, data = PDict d).
  { destruct k; by apply required_fields_dict in Hreq. }
  destruct Hd as [d ->].
  exists d, sid, cd, c. cbv zeta. fold r in Hstore, Hresp.
  rewrite Hstore, Hresp. split; [done|]. split.
  { cbn in Hsid. unfold getitem in Hsid. destruct (d !! "submissionId"); congruence. }
  split; [done|]. split; [apply log_callback_last|]. split; [reflexivity|].
  split; [done|]. split.
  { cbn [make_log_entry status]. unfold dict_get_default. by rewrite Hst. }
  split; [done|]. repeat split; reflexivity.
Qed.

(** The same at the example payload of [/docs], sent to the GST endpoint
    with an empty store. *)
Lemma accepted_answer_matches_record_witness :
  let req := json_request (PDict (gst_payload "SUCCESS" (PList []))) in
  let r := handler (fun _ => None) (fun _ => "") GstReturn req sample_oracle [] in
  exists d submission_id callback_data c,
    let record := make_log_entry req sample_oracle (tag GstReturn) callback_data in
    req_get_json req = inl (PDict d)
    /\ d !! "submissionId" = Some submission_id
    /\ snd r = snd (log_callback req sample_oracle (tag GstReturn) callback_data [])
    /\ last (snd r) = Some record
    /\ endpoint record = tag GstReturn
    /\ In c allowed_statuses
    /\ status record = PStr c
    /\ callback_data !! "submissionId" = Some submission_id
    /\ fst (fst r) !! "status" = Some (PStr "received")
    /\ fst (fst r) !! "requestId" = Some (PStr (requestId record))
    /\ fst (fst r) !! "submissionId" = Some submission_id.
Proof.
  apply (accepted_answer_matches_record (fun _ => None) (fun _ => "") GstReturn
           (json_request (PDict (gst_payload "SUCCESS" (PList [])))) sample_oracle []).
  reflexivity.
Defined.

Lemma serve_records_ok float_of_str format call callback_logs :
  (List.length callback_logs <= MAX_LOGS)%nat /\ Forall record_ok callback_logs ->
  (List.length (serve float_of_str format callback_logs call) <= MAX_LOGS)%nat
  /\ Forall record_ok (serve float_of_str format callback_logs call).
Proof.
  intros [Hlen Hall]. set (l := callback_logs) in *.
  assert (Happ : forall req now endpoint callback_data,
    record_ok (make_log_entry req now endpoint callback_data) ->
    (List.length (snd (log_callback req now endpoint callback_data l)) <= MAX_LOGS)%nat
    /\ Forall record_ok (snd (log_callback req now endpoint callback_data l))).
  { intros. split; [by apply log_callback_length | by apply log_callback_Forall]. }
  destruct call as [k req now|test_req stamps now|test_req stamps now|now| | | |];
    cbn [serve]; try done.
  - destruct (handler_store_effect float_of_str format k req now l)
      as ([-> | (sid & cd & [_ (c & Hc & Hst)] & ->)] & _); [done|].
    apply Happ. split.
    + cbn [make_log_entry endpoint]. destruct k; cbn; tauto.
    + exists c. split; [done|]. split; [|done].
      cbn [make_log_entry status]. unfold dict_get_default. by rewrite Hst.
  - apply (Happ test_req now "GST-RETURN-TEST" (mock_gst_data stamps)). split.
    + cbn. tauto.
    + exists "SUCCESS". split; [by left|]. split; reflexivity.
  - apply (Happ test_req now "FORM-CS-TEST" (mock_form_cs_data stamps)). split.
    + cbn. tauto.
    + exists "SUCCESS". split; [by left|]. split; reflexivity.
  - split; [cbn; lia | constructor].
Qed.

Lemma fold_serve_records_ok float_of_str format calls callback_logs :
  (List.length callback_logs <= MAX_LOGS)%nat /\ Forall record_ok callback_logs ->
  (List.length (fold_left (serve float_of_str format) calls callback_logs) <= MAX_LOGS)%nat
  /\ Forall record_ok (fold_left (serve float_of_str format) calls callback_logs).
Proof.
  revert callback_logs. induction calls as [|call calls IH]; intros l Hl; [exact Hl|].
  cbn [fold_left]. apply IH. by apply serve_records_ok.
Qed.

(** The store of the service: after any sequence of requests, starting
    from the empty store, it holds at most 200 records, and every record
    has a known tag and, as status, one of the six canonical strings,
    the one its payload carries. *)
Theorem api_store_invariant
    (float_of_str : string -> option PrimFloat.float) (format : pyval -> string)
    (calls : list api_call) :
  let callback_logs := fold_left (serve float_of_str format) calls [] in
  (List.length callback_logs <= MAX_LOGS)%nat /\ Forall record_ok callback_logs.
Proof.
  cbv zeta. apply fold_serve_records_ok. split; [cbn; lia | constructor].
Qed.

(* ================================================================== *)
(** * Error answers of the callback endpoints                           *)
(* ================================================================== *)

Lemma handler_callback float_of_str format k req now :
  exists body, forall callback_logs,
    handler float_of_str format k req now callback_logs
    = callback req now (required k) body callback_logs.
Proof. destruct k; eexists; intros; reflexivity. Qed.

Lemma handler_preamble_raise float_of_str format k req now callback_logs e :
  preamble req (required k) = Raise e ->
  handler float_of_str format k req now callback_logs
  = (on_error now e PNone, callback_logs).
Proof.
  intros H. destruct (handler_callback float_of_str format k req now) as [body ->].
  by rewrite callback_unfold, H.
Qed.

Lemma handler_outcome float_of_str format k req now callback_logs :
  outcome req now callback_logs (handler float_of_str format k req now callback_logs).
Proof.
  destruct k; cbn [handler].
  - apply gst_return_outcome.
  - apply form_cs_outcome.
  - apply commission_records_outcome.
  - apply donation_records_outcome.
  - apply e_stamping_outcome.
Qed.

Lemma on_error_rejects now message submission_id callback_logs :
  rejects (on_error now (ValidationError message None) submission_id, callback_logs)
    callback_logs message submission_id.
Proof. repeat split. Qed.

Lemma on_error_fails now e submission_id :
  is_validation_error e = false -> fails (on_error now e submission_id) submission_id.
Proof. destruct e; try discriminate; intros _; repeat split. Qed.

(** A body that cannot be read as JSON is a client error on every
    callback endpoint: a request that is not JSON, a body that decodes to
    null and a body that fails to decode are each answered with HTTP 400
    and their own message, with a null submission id, and nothing is
    stored. *)
Theorem undecodable_body_rejected
    (float_of_str : string -> option PrimFloat.float) (format : pyval -> string)
    (k : endpoint_kind) (req : request) (now : oracle) (callback_logs : list log_entry) :
  let r := handler float_of_str format k req now callback_logs in
  (req_is_json req = false ->
   rejects r callback_logs "Content-Type must be application/json" PNone)
  /\ (req_is_json req = true -> req_get_json req = inl PNone ->
      rejects r callback_logs
        "Invalid JSON payload: Request body must contain valid JSON" PNone)
  /\ (req_is_json req = true -> forall text, req_get_json req = inr text ->
      rejects r callback_logs ("Invalid JSON payload: " +:+ text) PNone).
Proof.
  cbv zeta. split; [|split].
  - intros H. rewrite (handler_preamble_raise _ _ _ _ _ _
      (ValidationError "Content-Type must be application/json" None)).
    + apply on_error_rejects.
    + unfold preamble, validate_json_payload. by rewrite H.
  - intros H1 H2. rewrite (handler_preamble_raise _ _ _ _ _ _
      (ValidationError "Invalid JSON payload: Request body must contain valid JSON" None)).
    + apply on_error_rejects.
    + unfold preamble, validate_json_payload. by rewrite H1, H2.
  - intros H1 text H2. rewrite (handler_preamble_raise _ _ _ _ _ _
      (ValidationError ("Invalid JSON payload: " +:+ text) None)).
    + apply on_error_rejects.
    + unfold preamble, validate_json_payload. by rewrite H1, H2.
Qed.

(** A JSON body that is not an object (an array, a string, a number, a
    boolean) is not a client error: every callback endpoint answers HTTP
    500 with the generic message and no detail, and stores nothing. *)
Theorem non_object_body_fails
    (float_of_str : string -> option PrimFloat.float) (format : pyval -> string)
    (k : endpoint_kind) (req : request) (now : oracle) (callback_logs : list log_entry)
    (data : pyval) :
  req_is_json req = true ->
  req_get_json req = inl data ->
  data <> PNone ->
  (forall d, data <> PDict d) ->
  let r := handler float_of_str format k req now callback_logs in
  fails (fst r) PNone /\ snd r = callback_logs.
Proof.
  intros H1 H2 Hn Hd. cbv zeta.
  rewrite (handler_preamble_raise _ _ _ _ _ _ AttributeError).
  - split; [by apply on_error_fails | reflexivity].
  - unfold preamble, validate_json_payload. rewrite H1, H2. cbn [negb].
    destruct data as [| | | | | |d]; try done; try (destruct k; reflexivity).
    by destruct (Hd d).
Qed.

Lemma non_object_body_fails_witness :
  let r := handler (fun _ => None) (fun _ => "") FormCs
             (json_request (PList [PStr "GST202501001234"])) sample_oracle [] in
  fails (fst r) PNone /\ snd r = [].
Proof.
  apply (non_object_body_fails (fun _ => None) (fun _ => "") FormCs
           (json_request (PList [PStr "GST202501001234"])) sample_oracle []
           (PList [PStr "GST202501001234"]));
    first [ reflexivity | discriminate | intros d; discriminate ].
Defined.

(** When a required field of the endpoint is absent or counts as false,
    the endpoint answers HTTP 400 with the list of all such fields, in the
    order of its [required_fields], and stores nothing.  The answer's
    submission id is null even if the payload carries one: the check
    runs before the id is read. *)
Theorem missing_required_fields_rejected
    (float_of_str : string -> option PrimFloat.float) (format : pyval -> string)
    (k : endpoint_kind) (req : request) (now : oracle) (callback_logs : list log_entry)
    (d : gmap string pyval) (field : string) :
  req_is_json req = true ->
  req_get_json req = inl (PDict d) ->
  In field (required k) ->
  truthy (dict_get d field) = false ->
  let missing := List.filter (fun f => negb (truthy (dict_get d f))) (required k) in
  let r := handler float_of_str format k req now callback_logs in
  In field missing
  /\ rejects r callback_logs ("Missing required fields: " +:+ join ", " missing) PNone.
Proof.
  intros H1 H2 Hin Hf missing r.
  assert (Hm : In field missing).
  { apply filter_In. split; [done|]. by rewrite Hf. }
  split; [done|]. subst r.
  rewrite (handler_preamble_raise _ _ _ _ _ _
    (ValidationError ("Missing required fields: " +:+ join ", " missing) None)).
  - apply on_error_rejects.
  - unfold preamble, validate_json_payload. rewrite H1, H2. cbn [negb].
    unfold mbind at 1 2, result_bind, bind at 1 2.
    unfold validate_required_fields. rewrite missing_fields_dict. fold missing.
    unfold mbind, result_bind, bind. destruct missing; [destruct Hm | reflexivity].
Qed.

Lemma missing_required_fields_rejected_witness :
  let d := delete "taxPeriod" (delete "formType" (gst_payload "SUCCESS" (PList []))) in
  let r := handler (fun _ => None) (fun _ => "") GstReturn
             (json_request (PDict d)) sample_oracle [] in
  (In "taxPeriod" (List.filter (fun f => negb (truthy (dict_get d f))) (required GstReturn))
   /\ rejects r [] "Missing required fields: formType, taxPeriod" PNone)
  /\ d !! "submissionId" = Some (PStr "GST202501001234").
Proof.
  split; [|reflexivity].
  assert (Hin : In "taxPeriod" (required GstReturn)) by (cbn; tauto).
  exact (missing_required_fields_rejected (fun _ => None) (fun _ => "") GstReturn
           (json_request (PDict (delete "taxPeriod"
              (delete "formType" (gst_payload "SUCCESS" (PList []))))))
           sample_oracle []
           (delete "taxPeriod" (delete "formType" (gst_payload "SUCCESS" (PList []))))
           "taxPeriod" eq_refl eq_refl Hin eq_refl).
Defined.

(** The answers of a callback endpoint: the status code is 200, 400 or
    500.  A 400 carries the validation message both as [message] and as
    [error_detail] and leaves the store as it was; a 500 carries the
    generic message and no detail; and no error answer names a field. *)
Theorem error_answers
    (float_of_str : string -> option PrimFloat.float) (format : pyval -> string)
    (k : endpoint_kind) (req : request) (now : oracle) (callback_logs : list log_entry) :
  let r := handler float_of_str format k req now callback_logs in
  (snd (fst r) = 200 \/ snd (fst r) = 400 \/ snd (fst r) = 500)
  /\ (snd (fst r) = 400 ->
      exists message submission_id, rejects r callback_logs message submission_id)
  /\ (snd (fst r) = 500 -> exists submission_id, fails (fst r) submission_id).
Proof.
  cbv zeta.
  pose proof (handler_outcome float_of_str format k req now callback_logs) as Ho.
  destruct (handler_store_effect float_of_str format k req now callback_logs)
    as (_ & _ & He).
  split; [|split].
  - destruct Ho; cbn; tauto.
  - intros Hc.
    destruct (outcome_rejected _ _ _ _ Ho Hc) as [Hs _].
    destruct He as (e & sid & Hnf & Her); [rewrite Hc; discriminate|].
    destruct (handler float_of_str format k req now callback_logs) as [a l].
    cbn [fst snd] in *. subst a l.
    rewrite on_error_code in Hc.
    destruct e as [m [f|]| | | | |]; try discriminate Hc; [destruct Hnf|].
    exists m, sid. apply on_error_rejects.
  - intros Hc.
    destruct He as (e & sid & Hnf & Her); [rewrite Hc; discriminate|].
    rewrite Her in *. rewrite on_error_code in Hc.
    exists sid. apply on_error_fails. by destruct (is_validation_error e).
Qed.

(* ================================================================== *)
(** * [GET /health]                                                     *)
(* ================================================================== *)

Lemma health_threshold :
  exists threshold,
    int_mul_float (Z.of_nat MAX_LOGS) Numbers.float_0_8 = Ok threshold
    /\ forall z, int_lt_float z threshold = (z <? 160).
Proof.
  eexists. split; [vm_compute; reflexivity|].
  intros z. unfold int_lt_float.
  match goal with |- context [FloatOps.Prim2SF ?f] =>
    let v := eval vm_compute in (FloatOps.Prim2SF f) in
    change (FloatOps.Prim2SF f) with v end.
  cbv beta iota.
  destruct (Z.ltb_spec z 160); [apply Z.ltb_lt | apply Z.ltb_ge]; lia.
Qed.

(** The health check always answers HTTP 200 with status "healthy" and
    the number of stored records, and reports the memory usage as
    "high" exactly when the store holds 160 records or more (80% of its
    capacity), as "normal" below that. *)
Theorem health_check_reports_load
    (python_version : string) (now : oracle) (callback_logs : list log_entry) :
  let r := health_check python_version now callback_logs in
  let n := Z.of_nat (List.length callback_logs) in
  snd r = 200
  /\ fst r !! "status" = Some (PStr "healthy")
  /\ fst r !! "logs_count" = Some (PInt n)
  /\ fst r !! "memory_usage" = Some (PStr (if n <? 160 then "normal" else "high")).
Proof.
  cbv zeta. unfold health_check.
  destruct health_threshold as (t & -> & Hlt).
  cbn [mbind result_bind bind]. rewrite Hlt.
  repeat split.
Qed.

(* ================================================================== *)
(** * [GET /logs/stats]                                                 *)
(* ================================================================== *)

Lemma counter_get_bump (k k' : string) (d : list (string * nat)) :
  counter_get String.eqb k' (bump String.eqb k d)
  = (counter_get String.eqb k' d + (if String.eqb k k' then 1 else 0))%nat.
Proof.
  induction d as [|[k0 n] d IH]; cbn [bump counter_get].
  - destruct (String.eqb k k'); reflexivity.
  - destruct (String.eqb_spec k0 k) as [->|Hk]; cbn [counter_get].
    + destruct (String.eqb k k'); lia.
    + destruct (String.eqb_spec k0 k') as [->|Hk']; [|exact IH].
      destruct (String.eqb_spec k k'); [congruence | lia].
Qed.

Lemma counter_total_bump {K} (eq : K -> K -> bool) (k : K) (d : list (K * nat)) :
  counter_total (bump eq k d) = (counter_total d + 1)%nat.
Proof.
  unfold counter_total.
  induction d as [|[k0 n] d IH]; cbn [bump fold_right snd]; [reflexivity|].
  destruct (eq k0 k); cbn [fold_right snd]; lia.
Qed.

Section StringKeys.

Variable key_eq : pyval -> pyval -> bool.
Hypothesis key_eq_str : forall a b, key_eq (PStr a) (PStr b) = String.eqb a b.

Lemma bump_str_keys s d :
  bump key_eq (PStr s) (str_keys d) = str_keys (bump String.eqb s d).
Proof.
  induction d as [|[k0 n] d IH]; [reflexivity|].
  cbn [str_keys map bump fst snd]. rewrite key_eq_str.
  destruct (String.eqb k0 s); [reflexivity|].
  cbn [map fst snd]. f_equal. exact IH.
Qed.

Lemma counter_get_str_keys s d :
  counter_get key_eq (PStr s) (str_keys d) = counter_get String.eqb s d.
Proof.
  induction d as [|[k0 n] d IH]; [reflexivity|].
  cbn [str_keys map counter_get fst snd]. rewrite key_eq_str.
  destruct (String.eqb k0 s); [reflexivity | exact IH].
Qed.

Lemma counter_total_str_keys d : counter_total (str_keys d) = counter_total d.
Proof.
  unfold counter_total, str_keys.
  induction d as [|[k0 n] d IH]; [reflexivity|]. cbn [map fold_right snd]. lia.
Qed.

Lemma count_logs_str callback_logs status_counts endpoint_counts :
  Forall (fun log => exists c, status log = PStr c) callback_logs ->
  exists status_counts' endpoint_counts',
    count_logs key_eq callback_logs (str_keys status_counts) endpoint_counts
    = Ok (str_keys status_counts', endpoint_counts')
    /\ (forall s, counter_get String.eqb s status_counts'
                  = (counter_get String.eqb s status_counts
                     + List.length (List.filter (has_status s) callback_logs))%nat)
    /\ (forall t, counter_get String.eqb t endpoint_counts'
                  = (counter_get String.eqb t endpoint_counts
                     + List.length (List.filter (has_endpoint t) callback_logs))%nat)
    /\ counter_total status_counts'
       = (counter_total status_counts + List.length callback_logs)%nat
    /\ counter_total endpoint_counts'
       = (counter_total endpoint_counts + List.length callback_logs)%nat.
Proof.
  intros Hall. revert status_counts endpoint_counts.
  induction Hall as [|log l [c Hc] _ IH]; intros sc ec.
  - exists sc, ec. cbn. repeat split; intros; lia.
  - cbn [count_logs]. rewrite Hc. cbn [hashable]. rewrite bump_str_keys.
    destruct (IH (bump String.eqb c sc) (bump String.eqb (endpoint log) ec))
      as (sc' & ec' & -> & Hs & He & Hts & Hte).
    exists sc', ec'. split; [reflexivity|].
    split; [|split; [|split]].
    + intros s. rewrite Hs, counter_get_bump. cbn [List.filter].
      unfold has_status at 2. rewrite Hc.
      destruct (String.eqb c s); cbn [List.length]; lia.
    + intros t. rewrite He, counter_get_bump. cbn [List.filter].
      unfold has_endpoint at 2.
      destruct (String.eqb (endpoint log) t); cbn [List.length]; lia.
    + rewrite Hts, counter_total_bump. cbn [List.length]. lia.
    + rewrite Hte, counter_total_bump. cbn [List.length]. lia.
Qed.

Lemma get_callback_stats_str now callback_logs :
  Forall (fun log => exists c, status log = PStr c) callback_logs ->
  callback_logs <> [] ->
  exists status_counts endpoint_counts latest,
    get_callback_stats key_eq now callback_logs
    = (Stats (List.length callback_logs) status_counts endpoint_counts
         (PStr (timestamp latest)) (map summary (last_n 10 callback_logs)), 200)
    /\ last callback_logs = Some latest
    /\ (forall s, counter_get key_eq (PStr s) status_counts
                  = List.length (List.filter (has_status s) callback_logs))
    /\ (forall t, counter_get String.eqb t endpoint_counts
                  = List.length (List.filter (has_endpoint t) callback_logs))
    /\ counter_total status_counts = List.length callback_logs
    /\ counter_total endpoint_counts = List.length callback_logs.
Proof.
  intros Hall Hne.
  destruct (count_logs_str callback_logs [] [] Hall)
    as (sc & ec & Hcount & Hs & He & Hts & Hte).
  change (str_keys []) with (@nil (pyval * nat)) in Hcount.
  destruct (last callback_logs) as [latest|] eqn:Hlast;
    [|by apply last_None in Hlast].
  exists (str_keys sc), ec, latest.
  split.
  { unfold get_callback_stats. destruct callback_logs as [|log l]; [done|].
    rewrite Hcount, Hlast. change (-10) with (- Z.of_nat 10).
    rewrite slice_from_neg by lia. reflexivity. }
  split; [reflexivity|].
  split; [intros s; rewrite counter_get_str_keys; apply Hs|].
  split; [exact He|].
  split; [rewrite counter_total_str_keys; exact Hts | exact Hte].
Qed.

End StringKeys.

(** The statistics of a non-empty store whose statuses are strings: the
    answer is HTTP 200; the total is the number of records; every status
    and every tag is counted as often as it occurs, and the counts add up
    to the total; the latest callback is the time stamp of the last
    record; and the recent activity summarises the last 10 records (all
    of them when there are fewer), oldest first. *)
Theorem get_callback_stats_counts
    (key_eq : pyval -> pyval -> bool) (now : oracle) (callback_logs : list log_entry) :
  (forall a b, key_eq (PStr a) (PStr b) = String.eqb a b) ->
  Forall (fun log => exists c, status log = PStr c) callback_logs ->
  callback_logs <> [] ->
  exists status_counts endpoint_counts latest,
    get_callback_stats key_eq now callback_logs
    = (Stats (List.length callback_logs) status_counts endpoint_counts
         (PStr (timestamp latest)) (map summary (last_n 10 callback_logs)), 200)
    /\ last callback_logs = Some latest
    /\ (forall s, counter_get key_eq (PStr s) status_counts
                  = List.length (List.filter (has_status s) callback_logs))
    /\ (forall t, counter_get String.eqb t endpoint_counts
                  = List.length (List.filter (has_endpoint t) callback_logs))
    /\ counter_total status_counts = List.length callback_logs
    /\ counter_total endpoint_counts = List.length callback_logs.
Proof. intros Hk. by apply get_callback_stats_str. Qed.

(** The statistics never fail on a store the service has built: after
    any sequence of requests, from the empty store, [GET /logs/stats]
    answers HTTP 200, with the fixed message while the store is empty and
    with the counts otherwise. *)
Theorem get_callback_stats_never_fails
    (key_eq : pyval -> pyval -> bool)
    (float_of_str : string -> option PrimFloat.float) (format : pyval -> string)
    (now : oracle) (calls : list api_call) :
  (forall a b, key_eq (PStr a) (PStr b) = String.eqb a b) ->
  let callback_logs := fold_left (serve float_of_str format) calls [] in
  let r := get_callback_stats key_eq now callback_logs in
  snd r = 200
  /\ (callback_logs = [] -> fst r = NoCallbacks)
  /\ (callback_logs <> [] ->
      exists status_counts endpoint_counts latest_callback recent_activity,
        fst r = Stats (List.length callback_logs) status_counts endpoint_counts
                  latest_callback recent_activity).
Proof.
  intros Hk. cbv zeta.
  destruct (fold_serve_records_ok float_of_str format calls [])
    as [_ Hall]; [split; [cbn; lia | constructor]|].
  set (l := fold_left _ _ _) in *.
  assert (Hstr : Forall (fun log => exists c, status log = PStr c) l).
  { eapply Forall_impl; [exact Hall|]. intros log (_ & c & _ & Hc & _). by exists c. }
  destruct l as [|log l'] eqn:El.
  - repeat split; done.
  - destruct (get_callback_stats_str key_eq Hk now (log :: l') Hstr)
      as (sc & ec & latest & -> & _); [done|].
    split; [reflexivity|]. split; [done|]. intros _. by eexists _, _, _, _.
Qed.

Lemma get_callback_stats_counts_witness :
  let req := json_request (PDict (gst_payload "SUCCESS" (PList []))) in
  let callback_logs :=
    [make_log_entry req sample_oracle "GST-RETURN" (gst_payload "SUCCESS" (PList []));
     make_log_entry req sample_oracle "FORM-CS-TEST" (gst_payload "PENDING" (PList []))] in
  exists status_counts endpoint_counts latest,
    get_callback_stats str_key_eq sample_oracle callback_logs
    = (Stats (List.length callback_logs) status_counts endpoint_counts
         (PStr (timestamp latest)) (map summary (last_n 10 callback_logs)), 200)
    /\ last callback_logs = Some latest
    /\ (forall s, counter_get str_key_eq (PStr s) status_counts
                  = List.length (List.filter (has_status s) callback_logs))
    /\ (forall t, counter_get String.eqb t endpoint_counts
                  = List.length (List.filter (has_endpoint t) callback_logs))
    /\ counter_total status_counts = List.length callback_logs
    /\ counter_total endpoint_counts = List.length callback_logs.
Proof.
  apply (get_callback_stats_counts str_key_eq sample_oracle
    [make_log_entry (json_request (PDict (gst_payload "SUCCESS" (PList []))))
       sample_oracle "GST-RETURN" (gst_payload "SUCCESS" (PList []));
     make_log_entry (json_request (PDict (gst_payload "SUCCESS" (PList []))))
       sample_oracle "FORM-CS-TEST" (gst_payload "PENDING" (PList []))]).
  - intros a b. reflexivity.
  - repeat constructor; by eexists.
  - discriminate.
Defined.

Lemma get_callback_stats_never_fails_witness :
  let req := json_request (PDict (gst_payload "SUCCESS" (PList []))) in
  let calls := [PostCallback GstReturn req sample_oracle; GetStats sample_oracle] in
  let callback_logs := fold_left (serve (fun _ => None) (fun _ => "")) calls [] in
  let r := get_callback_stats str_key_eq sample_oracle callback_logs in
  snd r = 200
  /\ (callback_logs = [] -> fst r = NoCallbacks)
  /\ (callback_logs <> [] ->
      exists status_counts endpoint_counts latest_callback recent_activity,
        fst r = Stats (List.length callback_logs) status_counts endpoint_counts
                  latest_callback recent_activity).
Proof.
  apply (get_callback_stats_never_fails str_key_eq (fun _ => None) (fun _ => "")
           sample_oracle
           [PostCallback GstReturn
              (json_request (PDict (gst_payload "SUCCESS" (PList [])))) sample_oracle;
            GetStats sample_oracle]).
  intros a b. reflexivity.
Defined.

(* ================================================================== *)
(** * [POST /test/validate-callback] and the endpoints                  *)
(* ================================================================== *)

Lemma bind_lift_Ok {A B} (a : A) (k : A -> M B) callback_logs :
  (lift (Ok a) ≫= k) callback_logs = k a callback_logs.
Proof. reflexivity. Qed.

Lemma bind_lift_Raise {A B} (e : exn) (k : A -> M B) callback_logs :
  (lift (Raise e) ≫= k) callback_logs = (Raise e, callback_logs).
Proof. reflexivity. Qed.

Lemma validate_by_type_kind k data :
  validate_by_type (type_name k) data
  = (_ ← validate_required_fields data (base_required k); field_checks k data).
Proof. destruct k; reflexivity. Qed.

Lemma validate_by_type_unknown callback_type data :
  (forall k, callback_type <> type_name k) ->
  validate_by_type callback_type data = Ok tt.
Proof.
  intros H. unfold validate_by_type.
  destruct (String.eqb_spec callback_type "gst-return") as [->|_];
    [by destruct (H GstReturn)|].
  destruct (str_in callback_type _) eqn:E; [|reflexivity].
  apply str_in_In in E. cbn in E.
  destruct E as [<-|[<-|[<-|[<-|[]]]]].
  - by destruct (H FormCs).
  - by destruct (H CommissionRecords).
  - by destruct (H DonationRecords).
  - by destruct (H EStamping).
Qed.

Lemma required_base k : exists extra, required k = (base_required k ++ extra)%list.
Proof.
  destruct k; [by exists [] | by exists ["formVersion"; "filingType"]
    | by exists ["recordType"; "recordPeriod"] | by exists ["donationType"; "donationPeriod"]
    | by exists ["documentType"]].
Qed.

Lemma base_required_submission_id k : In "submissionId" (base_required k).
Proof. destruct k; by left. Qed.

Lemma validate_required_fields_dict (d : gmap string pyval) required_fields :
  validate_required_fields (PDict d) required_fields
  = match List.filter (fun f => negb (truthy (dict_get d f))) required_fields with
    | [] => Ok tt
    | missing =>
        Raise (ValidationError ("Missing required fields: " +:+ join ", " missing) None)
    end.
Proof.
  unfold validate_required_fields. rewrite missing_fields_dict.
  cbn [mbind result_bind bind]. by destruct (List.filter _ _).
Qed.

Lemma validate_required_fields_other data field rest :
  (forall d, data <> PDict d) ->
  validate_required_fields data (field :: rest) = Raise AttributeError.
Proof.
  intros H. destruct data as [| | | | | |d]; try reflexivity.
  exfalso. by apply (H d).
Qed.

Lemma validate_json_payload_raise req e :
  validate_json_payload req = Raise e -> exists message, e = ValidationError message None.
Proof.
  unfold validate_json_payload. destruct (req_is_json req); cbn [negb].
  - destruct (req_get_json req) as [[]|text]; intros [= <-]; by eexists.
  - intros [= <-]. by eexists.
Qed.

Lemma status_check_no_field data e :
  subscript data "submissionStatus" ≫= validate_submission_status = Raise e -> no_field e.
Proof. revert e. raises_no_field. Qed.

Lemma form_type_check_no_field data e :
  subscript data "formType" ≫= validate_form_type = Raise e -> no_field e.
Proof. revert e. raises_no_field. Qed.

Lemma uen_check_no_field data e :
  subscript data "companyUEN" ≫= validate_uen = Raise e -> no_field e.
Proof. revert e. raises_no_field. Qed.

Lemma tax_period_check_no_field data e :
  subscript data "taxPeriod" ≫= validate_tax_period = Raise e -> no_field e.
Proof. revert e. raises_no_field. Qed.

Lemma field_checks_no_field k data e : field_checks k data = Raise e -> no_field e.
Proof.
  intros H.
  assert (Hbase :
    (_ ← subscript data "submissionStatus" ≫= validate_submission_status;
     _ ← subscript data "companyUEN" ≫= validate_uen;
     Ok tt) = Raise e -> no_field e).
  { destruct (subscript data "submissionStatus" ≫= validate_submission_status) eqn:E1;
      cbn [mbind result_bind bind];
      [|intros [= <-]; by apply status_check_no_field in E1].
    destruct (subscript data "companyUEN" ≫= validate_uen) eqn:E2;
      cbn [mbind result_bind bind];
      [discriminate | intros [= <-]; by apply uen_check_no_field in E2]. }
  destruct k; try exact (Hbase H). clear Hbase. unfold field_checks in H.
  destruct (subscript data "submissionStatus" ≫= validate_submission_status) eqn:E1;
    cbn [mbind result_bind bind] in H;
    [|injection H as <-; by apply status_check_no_field in E1].
  destruct (subscript data "formType" ≫= validate_form_type) eqn:E2;
    cbn [mbind result_bind bind] in H;
    [|injection H as <-; by apply form_type_check_no_field in E2].
  destruct (subscript data "companyUEN" ≫= validate_uen) eqn:E3;
    cbn [mbind result_bind bind] in H;
    [|injection H as <-; by apply uen_check_no_field in E3].
  destruct (subscript data "taxPeriod" ≫= validate_tax_period) eqn:E4;
    cbn [mbind result_bind bind] in H;
    [discriminate | injection H as <-; by apply tax_period_check_no_field in E4].
Qed.

(** One lifted check of a handler body that [field_checks] makes too. *)
Ltac check_step H :=
  match type of H with
  | context [mbind _ (mbind ?f ?x)] =>
      destruct (mbind f x) eqn:?; cbn [mbind result_bind bind] in H;
      [rewrite bind_lift_Ok | rewrite bind_lift_Raise; by injection H as ->]
  end.

Section ValidateOnly.

Variable float_of_str : string -> option PrimFloat.float.
Variable format : pyval -> string.
Variable k : endpoint_kind.
Variable req : request.
Variable now now' : oracle.
Variable callback_logs : list log_entry.

Lemma handler_field_checks data submission_id e :
  preamble req (required k) = Ok (data, submission_id) ->
  field_checks k data = Raise e ->
  handler float_of_str format k req now callback_logs
  = (on_error now e submission_id, callback_logs).
Proof.
  intros Hpre H.
  destruct k; cbn [handler];
    unfold gst_return_callback, form_cs_callback, commission_records_callback,
      donation_records_callback, e_stamping_callback;
    rewrite callback_unfold; cbn [required] in Hpre; rewrite Hpre;
    unfold field_checks in H;
    repeat check_step H; discriminate H.
Qed.

Hypothesis type_k : default "gst-return" (req_args req !! "type") = type_name k.

Lemma test_validate_callback_json message :
  validate_json_payload req = Raise (ValidationError message None) ->
  test_validate_callback req now' = invalid_answer now' message.
Proof. intros H. unfold test_validate_callback. by rewrite H. Qed.

Lemma test_validate_callback_checked data (r : result unit) :
  validate_json_payload req = Ok data ->
  validate_by_type (type_name k) data = r ->
  test_validate_callback req now'
  = match r with
    | Ok _ => valid_answer now' (type_name k) data
    | Raise (ValidationError message None) => invalid_answer now' message
    | Raise (ValidationError message (Some f)) =>
        ({[ "status" := PStr "invalid";
            "message" := PStr "Validation failed";
            "error" := PStr message;
            "field" := PStr f;
            "timestamp" := PStr (now_error now') ]}, 400)
    | Raise e => create_error_response now' e PNone 500
    end.
Proof.
  intros H Hr. unfold test_validate_callback. rewrite H, type_k.
  cbn [mbind result_bind bind]. rewrite Hr.
  destruct r as [[]|[m [f|]| | | | |]]; reflexivity.
Qed.

(** The three ways the validation-only endpoint and the endpoint of the
    same kind relate on one request. *)
Lemma validate_or_reject :
  let v := test_validate_callback req now' in
  let r := handler float_of_str format k req now callback_logs in
  (exists data, req_get_json req = inl data /\ v = valid_answer now' (type_name k) data)
  \/ (exists message,
        v = invalid_answer now' message
        /\ exists message' submission_id,
             rejects r callback_logs message' submission_id
             /\ (k = GstReturn -> message' = message))
  \/ (snd v = 500 /\ snd (fst r) <> 200).
Proof.
  cbv zeta.
  destruct (validate_json_payload req) as [data|e] eqn:Ej.
  2:{ destruct (validate_json_payload_raise _ _ Ej) as [m ->].
      right; left. exists m. split; [by apply test_validate_callback_json|].
      exists m, PNone. split; [|done].
      rewrite (handler_preamble_raise _ _ _ _ _ _ (ValidationError m None)).
      - apply on_error_rejects.
      - unfold preamble. by rewrite Ej. }
  assert (Hget : req_get_json req = inl data).
  { unfold validate_json_payload in Ej. destruct (req_is_json req); cbn [negb] in Ej; [|discriminate].
    destruct (req_get_json req) as [[]|]; by simplify_eq. }
  pose proof (test_validate_callback_checked data _ Ej (validate_by_type_kind k data)) as Hv.
  assert (Hdict : (exists d, data = PDict d) \/ forall d, data <> PDict d).
  { destruct data; try (right; discriminate). left. by eexists. }
  destruct Hdict as [[d ->]|Hnd].
  2:{ right; right. rewrite Hv.
      assert (Hb : validate_required_fields data (base_required k) = Raise AttributeError).
      { destruct k; by apply validate_required_fields_other. }
      rewrite Hb. cbn [mbind result_bind bind]. split; [reflexivity|].
      rewrite (handler_preamble_raise _ _ _ _ _ _ AttributeError).
      - discriminate.
      - unfold preamble. rewrite Ej. cbn [mbind result_bind bind].
        assert (Hr : validate_required_fields data (required k) = Raise AttributeError).
        { destruct k; by apply validate_required_fields_other. }
        by rewrite Hr. }
  set (absent := fun f : string => negb (truthy (dict_get d f))) in *.
  destruct (required_base k) as [extra Hreq].
  assert (Hfilter : List.filter absent (required k)
                    = (List.filter absent (base_required k) ++ List.filter absent extra)%list).
  { by rewrite Hreq, List.filter_app. }
  assert (Hpre : preamble req (required k)
                 = (_ ← validate_required_fields (PDict d) (required k);
                    submission_id ← subscript (PDict d) "submissionId";
                    Ok (PDict d, submission_id))).
  { unfold preamble. by rewrite Ej. }
  rewrite validate_required_fields_dict in Hv, Hpre. fold absent in Hv, Hpre.
  rewrite Hfilter in Hpre.
  destruct (List.filter absent (base_required k)) as [|f ms] eqn:Eb.
  - (* the fields checked by both are present *)
    cbn [mbind result_bind bind] in Hv.
    assert (Hsid : exists submission_id,
              subscript (PDict d) "submissionId" = Ok submission_id).
    { cbn [subscript]. unfold getitem.
      destruct (d !! "submissionId") as [v|] eqn:Ev; [by eexists|].
      assert (Hin : In "submissionId" (List.filter absent (base_required k))).
      { apply filter_In. split; [apply base_required_submission_id|].
        unfold absent, dict_get. by rewrite Ev. }
      rewrite Eb in Hin. destruct Hin. }
    destruct Hsid as [sid Hsid].
    destruct (field_checks k (PDict d)) as [[]|e] eqn:Ec.
    { left. by exists (PDict d). }
    pose proof (field_checks_no_field _ _ _ Ec) as Hnf.
    assert (Hr : exists sid',
      handler float_of_str format k req now callback_logs
      = (on_error now e sid', callback_logs)
      \/ exists m, handler float_of_str format k req now callback_logs
                   = (on_error now (ValidationError m None) sid', callback_logs)
                   /\ k <> GstReturn).
    { cbn [app] in Hpre. destruct (List.filter absent extra) as [|f' ms'] eqn:Ee.
      - exists sid. left. apply handler_field_checks with (data := PDict d); [|done].
        rewrite Hpre. cbn [mbind result_bind bind]. by rewrite Hsid.
      - exists PNone. right. eexists. split.
        + apply handler_preamble_raise. rewrite Hpre. reflexivity.
        + intros ->. cbn [required base_required] in Hreq.
          apply (f_equal (@List.length string)) in Hreq.
          rewrite List.length_app in Hreq. cbn [List.length] in Hreq.
          assert (extra = []) as -> by (destruct extra; [done | cbn in Hreq; lia]).
          discriminate Ee. }
    destruct Hr as [sid' [Hr | (m' & Hr & Hk)]].
    + destruct e as [m [f|]| | | | |]; [destruct Hnf| | | | | |];
        [right; left; exists m; split; [exact Hv|]; exists m, sid'; split; [|done];
         rewrite Hr; apply on_error_rejects |..];
        (right; right; rewrite Hv, Hr; split; [reflexivity | discriminate]).
    + destruct e as [m [f|]| | | | |]; [destruct Hnf| | | | | |];
        [right; left; exists m; split; [exact Hv|]; exists m', sid'; split; [|done];
         rewrite Hr; apply on_error_rejects |..];
        (right; right; rewrite Hv, Hr; split; [reflexivity | discriminate]).
  - (* a field checked by both is missing *)
    cbn [mbind result_bind bind] in Hv. right; left. eexists. split; [exact Hv|].
    exists ("Missing required fields: "
            +:+ join ", " ((f :: ms) ++ List.filter absent extra)%list), PNone.
    split.
    + erewrite handler_preamble_raise; [apply on_error_rejects|].
      rewrite Hpre. reflexivity.
    + intros ->. cbn [required base_required] in Hreq.
      apply (f_equal (@List.length string)) in Hreq.
      rewrite List.length_app in Hreq. cbn [List.length] in Hreq.
      assert (extra = []) as -> by (destruct extra; [done | cbn in Hreq; lia]).
      cbn [List.filter]. by rewrite app_nil_r.
Qed.

End ValidateOnly.

(** What an endpoint accepts, the validation-only endpoint calls valid:
    when the endpoint of a kind answers HTTP 200 to a request, then
    [POST /test/validate-callback] with the [type] of that kind (or, for
    GST returns, with no [type]) answers HTTP 200 with status "valid" and
    the body given back as [validated_data]. *)
Theorem accepted_callback_validates
    (float_of_str : string -> option PrimFloat.float) (format : pyval -> string)
    (k : endpoint_kind) (req : request) (now now' : oracle)
    (callback_logs : list log_entry) :
  default "gst-return" (req_args req !! "type") = type_name k ->
  snd (fst (handler float_of_str format k req now callback_logs)) = 200 ->
  exists data,
    req_get_json req = inl data
    /\ test_validate_callback req now' = valid_answer now' (type_name k) data.
Proof.
  intros Ht Hc.
  destruct (validate_or_reject float_of_str format k req now now' callback_logs Ht)
    as [H | [(m & _ & m' & sid & Hrej & _) | [_ Hn]]]; [exact H | | done].
  destruct Hrej as [Hrej _]. rewrite Hc in Hrej. discriminate.
Qed.

Lemma accepted_callback_validates_witness :
  let req := json_request (PDict (gst_payload "SUCCESS" (PList []))) in
  exists data,
    req_get_json req = inl data
    /\ test_validate_callback req sample_oracle
       = valid_answer sample_oracle "gst-return" data.
Proof.
  apply (accepted_callback_validates (fun _ => None) (fun _ => "") GstReturn
           (json_request (PDict (gst_payload "SUCCESS" (PList []))))
           sample_oracle sample_oracle []); reflexivity.
Defined.

(** What the validation-only endpoint calls invalid, the endpoint
    rejects: when [POST /test/validate-callback] answers HTTP 400 for the
    [type] of a kind, its body has status "invalid", the message
    "Validation failed" and a null [field], and the endpoint of that kind
    answers the same request with HTTP 400 and stores nothing; for GST
    returns the two report the same error. *)
Theorem invalid_callback_rejected
    (float_of_str : string -> option PrimFloat.float) (format : pyval -> string)
    (k : endpoint_kind) (req : request) (now now' : oracle)
    (callback_logs : list log_entry) :
  default "gst-return" (req_args req !! "type") = type_name k ->
  snd (test_validate_callback req now') = 400 ->
  exists message message' submission_id,
    test_validate_callback req now' = invalid_answer now' message
    /\ rejects (handler float_of_str format k req now callback_logs)
         callback_logs message' submission_id
    /\ (k = GstReturn -> message' = message).
Proof.
  intros Ht Hc.
  destruct (validate_or_reject float_of_str format k req now now' callback_logs Ht)
    as [(data & _ & H) | [(m & Hv & m' & sid & Hrej & Hm) | [H _]]].
  - rewrite H in Hc. discriminate.
  - by exists m, m', sid.
  - rewrite Hc in H. discriminate.
Qed.

Lemma invalid_callback_rejected_witness :
  let data := PDict (<["companyUEN" := PStr "2012345D"]> (gst_payload "SUCCESS" (PList []))) in
  let req := validate_request (Some "form-cs") data in
  exists message message' submission_id,
    test_validate_callback req sample_oracle = invalid_answer sample_oracle message
    /\ rejects (handler (fun _ => None) (fun _ => "") FormCs req sample_oracle [])
         [] message' submission_id
    /\ (FormCs = GstReturn -> message' = message).
Proof.
  apply (invalid_callback_rejected (fun _ => None) (fun _ => "") FormCs
           (validate_request (Some "form-cs")
              (PDict (<["companyUEN" := PStr "2012345D"]>
                        (gst_payload "SUCCESS" (PList [])))))
           sample_oracle sample_oracle []); reflexivity.
Defined.

(** A [type] that names no kind checks nothing: every body that decodes
    to a JSON value other than null is answered with HTTP 200 and status
    "valid", whatever it holds. *)
Theorem unknown_type_validates_anything
    (req : request) (now : oracle) (data : pyval) :
  (forall k, default "gst-return" (req_args req !! "type") <> type_name k) ->
  req_is_json req = true ->
  req_get_json req = inl data ->
  data <> PNone ->
  test_validate_callback req now
  = valid_answer now (default "gst-return" (req_args req !! "type")) data.
Proof.
  intros Ht Hj Hd Hn. unfold test_validate_callback, validate_json_payload.
  rewrite Hj, Hd. cbn [negb].
  assert (Hp : match data with
               | PNone =>
                   Raise (ValidationError
                     ("Invalid JSON payload: " +:+ "Request body must contain valid JSON") None)
               | _ => Ok data
               end = Ok data) by (by destruct data).
  rewrite Hp. cbn [mbind result_bind bind].
  by rewrite validate_by_type_unknown.
Qed.

Lemma unknown_type_validates_anything_witness :
  test_validate_callback (validate_request (Some "gst") (PList [])) sample_oracle
  = valid_answer sample_oracle "gst" (PList []).
Proof.
  apply (unknown_type_validates_anything (validate_request (Some "gst") (PList []))
           sample_oracle (PList []));
    first [ reflexivity | discriminate | intros []; discriminate ].
Defined.

(* ================================================================== *)
(** * The mock endpoints                                                *)
(* ================================================================== *)

(** The mock GST endpoint always answers HTTP 200 and stores its payload
    as one record under the tag GST-RETURN-TEST.  The payload is one the
    GST endpoint accepts: sent to it, the same data are stored, under
    the tag GST-RETURN, and the answer is the [callback_response] of the
    mock endpoint, up to the word "Mock" in its message. *)
Theorem mock_gst_payload_accepted
    (float_of_str : string -> option PrimFloat.float) (format : pyval -> string)
    (test_req req : request) (stamps : mock_stamps) (now : oracle)
    (callback_logs : list log_entry) :
  stamp_date_time stamps <> "" ->
  req_is_json req = true ->
  req_get_json req = inl (PDict (mock_gst_data stamps)) ->
  let mock := test_mock_gst_callback now test_req stamps callback_logs in
  let real := handler float_of_str format GstReturn req now callback_logs in
  let submission_id := PStr ("GST" +:+ stamp_id stamps) in
  let request_id := str_take 8 (uuid4_log now) in
  snd (fst mock) = 200
  /\ snd mock = snd (log_callback test_req now "GST-RETURN-TEST"
                       (mock_gst_data stamps) callback_logs)
  /\ fst (fst mock) !! "mock_data" = Some (PDict (mock_gst_data stamps))
  /\ fst (fst mock) !! "callback_response"
     = Some (PDict (create_success_response now
                      "Mock GST F5 submission for period 202412 processed successfully"
                      submission_id request_id))
  /\ snd real = snd (log_callback req now "GST-RETURN" (mock_gst_data stamps) callback_logs)
  /\ fst real
     = (create_success_response now
          "GST F5 submission for period 202412 processed successfully"
          submission_id request_id, 200).
Proof.
  intros Hs Hj Hd. cbv zeta.
  destruct stamps as [sid sdt ack]. cbn [stamp_date_time stamp_id] in *.
  destruct sdt as [|c sdt]; [done|].
  split; [reflexivity|]. split; [reflexivity|]. split; [reflexivity|].
  split; [reflexivity|].
  cbn [handler]. unfold gst_return_callback. rewrite callback_unfold.
  assert (Hpre : preamble req (required GstReturn)
                 = Ok (PDict (mock_gst_data {| stamp_id := sid;
                                               stamp_date_time := String c sdt;
                                               stamp_ack := ack |}),
                       PStr ("GST" +:+ sid))).
  { unfold preamble, validate_json_payload. rewrite Hj, Hd. reflexivity. }
  cbn [required] in Hpre. rewrite Hpre.
  split; reflexivity.
Qed.

Lemma mock_gst_payload_accepted_witness :
  let stamps := {| stamp_id := "20250115143001";
                   stamp_date_time := "2025-01-15T14:30:01.000000";
                   stamp_ack := "20250115143001" |} in
  let req := json_request (PDict (mock_gst_data stamps)) in
  let mock := test_mock_gst_callback sample_oracle req stamps [] in
  let real := handler (fun _ => None) (fun _ => "") GstReturn req sample_oracle [] in
  let submission_id := PStr ("GST" +:+ stamp_id stamps) in
  let request_id := str_take 8 (uuid4_log sample_oracle) in
  snd (fst mock) = 200
  /\ snd mock = snd (log_callback req sample_oracle "GST-RETURN-TEST"
                       (mock_gst_data stamps) [])
  /\ fst (fst mock) !! "mock_data" = Some (PDict (mock_gst_data stamps))
  /\ fst (fst mock) !! "callback_response"
     = Some (PDict (create_success_response sample_oracle
                      "Mock GST F5 submission for period 202412 processed successfully"
                      submission_id request_id))
  /\ snd real = snd (log_callback req sample_oracle "GST-RETURN" (mock_gst_data stamps) [])
  /\ fst real
     = (create_success_response sample_oracle
          "GST F5 submission for period 202412 processed successfully"
          submission_id request_id, 200).
Proof.
  apply (mock_gst_payload_accepted (fun _ => None) (fun _ => "")
           (json_request (PDict (mock_gst_data
              {| stamp_id := "20250115143001";
                 stamp_date_time := "2025-01-15T14:30:01.000000";
                 stamp_ack := "20250115143001" |})))
           (json_request (PDict (mock_gst_data
              {| stamp_id := "20250115143001";
                 stamp_date_time := "2025-01-15T14:30:01.000000";
                 stamp_ack := "20250115143001" |})))
           {| stamp_id := "20250115143001";
              stamp_date_time := "2025-01-15T14:30:01.000000";
              stamp_ack := "20250115143001" |}
           sample_oracle []);
    first [ reflexivity | discriminate ].
Defined.

(** The mock Form CS endpoint always answers HTTP 200 and stores its
    payload as one record under the tag FORM-CS-TEST.  The payload is one
    the Form CS endpoint accepts: sent to it, the same data are stored,
    under the tag FORM-CS, and the answer is the [callback_response] of
    the mock endpoint. *)
Theorem mock_form_cs_payload_accepted
    (float_of_str : string -> option PrimFloat.float) (format : pyval -> string)
    (test_req req : request) (stamps : mock_stamps) (now : oracle)
    (callback_logs : list log_entry) :
  (forall s, format (PStr s) = s) ->
  stamp_date_time stamps <> "" ->
  req_is_json req = true ->
  req_get_json req = inl (PDict (mock_form_cs_data stamps)) ->
  let mock := test_mock_form_cs_callback now test_req stamps callback_logs in
  let real := handler float_of_str format FormCs req now callback_logs in
  let answer :=
    create_success_response now
      "Form CS (ANNUAL_RETURN) submission processed successfully"
      (PStr ("CS" +:+ stamp_id stamps)) (str_take 8 (uuid4_log now)) in
  snd (fst mock) = 200
  /\ snd mock = snd (log_callback test_req now "FORM-CS-TEST"
                       (mock_form_cs_data stamps) callback_logs)
  /\ fst (fst mock) !! "mock_data" = Some (PDict (mock_form_cs_data stamps))
  /\ fst (fst mock) !! "callback_response" = Some (PDict answer)
  /\ snd real = snd (log_callback req now "FORM-CS" (mock_form_cs_data stamps) callback_logs)
  /\ fst real = (answer, 200).
Proof.
  intros Hf Hs Hj Hd. cbv zeta.
  destruct stamps as [sid sdt ack]. cbn [stamp_date_time stamp_id] in *.
  destruct sdt as [|c sdt]; [done|].
  split; [reflexivity|]. split; [reflexivity|]. split; [reflexivity|].
  split; [reflexivity|].
  assert (Hpre : preamble req (required FormCs)
                 = Ok (PDict (mock_form_cs_data {| stamp_id := sid;
                                                   stamp_date_time := String c sdt;
                                                   stamp_ack := ack |}),
                       PStr ("CS" +:+ sid))).
  { unfold preamble, validate_json_payload. rewrite Hj, Hd. reflexivity. }
  assert (Hr : handler float_of_str format FormCs req now callback_logs
               = ((create_success_response now
                     ("Form CS (" +:+ format (PStr "ANNUAL_RETURN")
                      +:+ ") submission processed successfully")
                     (PStr ("CS" +:+ sid)) (str_take 8 (uuid4_log now)), 200),
                  snd (log_callback req now "FORM-CS"
                         (mock_form_cs_data {| stamp_id := sid;
                                               stamp_date_time := String c sdt;
                                               stamp_ack := ack |}) callback_logs))).
  { cbn [handler]. unfold form_cs_callback. rewrite callback_unfold.
    cbn [required] in Hpre. rewrite Hpre. reflexivity. }
  rewrite Hr, Hf. split; reflexivity.
Qed.

Lemma mock_form_cs_payload_accepted_witness :
  let stamps := {| stamp_id := "20250115143001";
                   stamp_date_time := "2025-01-15T14:30:01.000000";
                   stamp_ack := "20250115143001" |} in
  let format := fun v => match v with PStr s => s | _ => "" end in
  let req := json_request (PDict (mock_form_cs_data stamps)) in
  let mock := test_mock_form_cs_callback sample_oracle req stamps [] in
  let real := handler (fun _ => None) format FormCs req sample_oracle [] in
  let answer :=
    create_success_response sample_oracle
      "Form CS (ANNUAL_RETURN) submission processed successfully"
      (PStr ("CS" +:+ stamp_id stamps)) (str_take 8 (uuid4_log sample_oracle)) in
  snd (fst mock) = 200
  /\ snd mock = snd (log_callback req sample_oracle "FORM-CS-TEST"
                       (mock_form_cs_data stamps) [])
  /\ fst (fst mock) !! "mock_data" = Some (PDict (mock_form_cs_data stamps))
  /\ fst (fst mock) !! "callback_response" = Some (PDict answer)
  /\ snd real = snd (log_callback req sample_oracle "FORM-CS" (mock_form_cs_data stamps) [])
  /\ fst real = (answer, 200).
Proof.
  apply (mock_form_cs_payload_accepted (fun _ => None)
           (fun v => match v with PStr s => s | _ => "" end)
           (json_request (PDict (mock_form_cs_data
              {| stamp_id := "20250115143001";
                 stamp_date_time := "2025-01-15T14:30:01.000000";
                 stamp_ack := "20250115143001" |})))
           (json_request (PDict (mock_form_cs_data
              {| stamp_id := "20250115143001";
                 stamp_date_time := "2025-01-15T14:30:01.000000";
                 stamp_ack := "20250115143001" |})))
           {| stamp_id := "20250115143001";
              stamp_date_time := "2025-01-15T14:30:01.000000";
              stamp_ack := "20250115143001" |}
           sample_oracle []);
    first [ reflexivity | discriminate ].
Defined.

(* ================================================================== *)
(** * Fields of the wrong JSON type                                     *)
(* ================================================================== *)


(** The validators expect strings.  A value that is present and counts
    as true but is not a string (a number, [true], a non-empty array or
    object) is not reported as a validation error: [upper] is missing on
    it, or [re.match] refuses it, and the validator raises
    [AttributeError] or [TypeError]. *)
Theorem validators_raise_on_non_strings (raw : pyval) :
  truthy raw = true ->
  (forall s, raw <> PStr s) ->
  validate_submission_status raw = Raise AttributeError
  /\ validate_form_type raw = Raise AttributeError
  /\ validate_uen raw = Raise TypeError
  /\ validate_tax_period raw = Raise TypeError.
Proof.
  intros Ht Hs.
  unfold validate_submission_status, validate_form_type, validate_uen, validate_tax_period.
  rewrite Ht. cbn [negb].
  destruct raw as [| | | |s| |]; try by repeat split.
  exfalso. by apply (Hs s).
Qed.

Lemma validators_raise_on_non_strings_witness :
  validate_submission_status (PInt 1) = Raise AttributeError
  /\ validate_form_type (PInt 1) = Raise AttributeError
  /\ validate_uen (PInt 1) = Raise TypeError
  /\ validate_tax_period (PInt 1) = Raise TypeError.
Proof.
  apply (validators_raise_on_non_strings (PInt 1)); [reflexivity | discriminate].
Defined.






(* ================================================================== *)
(** * An accepted callback in [GET /logs]                               *)
(* ================================================================== *)

Lemma last_last_n {A} (n : nat) (l : list A) :
  (1 <= n)%nat -> last (last_n n l) = last l.
Proof.
  intros Hn. unfold last_n. set (m := (List.length l - n)%nat).
  rewrite <- (take_drop m l) at 2. rewrite last_app.
  destruct (last (drop m l)) eqn:E; [reflexivity|].
  apply last_None in E. apply (f_equal (@List.length A)) in E.
  rewrite length_drop in E. cbn [List.length] in E.
  assert (l = []) as -> by (apply length_zero_iff_nil; lia).
  by rewrite take_nil.
Qed.

(** The limit of [GET /logs] is read as [int] reads it, and is 10 when
    [int] refuses it. *)
Lemma limit_arg_reads_int :
  limit_arg (logs_request None) = 10
  /\ limit_arg (logs_request (Some "abc")) = 10
  /\ limit_arg (logs_request (Some " 7 ")) = 7
  /\ limit_arg (logs_request (Some (String nbsp "0"))) = 0
  /\ (forall s, int_max_str_digits < count_digits s ->
      limit_arg (logs_request (Some s)) = 10).
Proof.
  split; [reflexivity|]. split; [reflexivity|]. split; [reflexivity|].
  split; [reflexivity|]. intros s H.
  change (limit_arg (logs_request (Some s)))
    with (match int_of_str s with Some z => z | None => 10 end).
  unfold int_of_str. apply Z.ltb_lt in H. rewrite H.
  by destruct (int_literal s).
Qed.

(** An accepted callback is listed: when an endpoint answers HTTP 200,
    the next [GET /logs] with a limit of at least one (or with none, or
    with one that is not an integer) shows the new record as its last
    entry, under the tag of the endpoint and with the request id of the
    answer; the total is the size of the store. *)
Theorem accepted_callback_listed
    (float_of_str : string -> option PrimFloat.float) (format : pyval -> string)
    (k : endpoint_kind) (req : request) (now : oracle) (callback_logs : list log_entry)
    (logs_req : request) :
  let r := handler float_of_str format k req now callback_logs in
  let view := fst (get_callback_logs logs_req (snd r)) in
  snd (fst r) = 200 ->
  1 <= limit_arg logs_req ->
  exists record,
    last (logs view) = Some record
    /\ last (snd r) = Some record
    /\ endpoint record = tag k
    /\ fst (fst r) !! "requestId" = Some (PStr (requestId record))
    /\ (1 <= returned_logs view <= 50)%nat
    /\ returned_logs view = List.length (logs view)
    /\ total_callbacks view = List.length (snd r).
Proof.
  cbv zeta. intros Hc Hl.
  destruct (handler_store_effect float_of_str format k req now callback_logs)
    as (_ & H & _).
  destruct (H Hc) as (data & sid & cd & message & _ & _ & _ & _ & Hstore & Hresp).
  destruct (get_callback_logs_positive logs_req
              (snd (handler float_of_str format k req now callback_logs)) Hl)
    as [Hview Hmax].
  pose proof (log_callback_last req now (tag k) cd callback_logs) as Hlast.
  rewrite <- Hstore in Hlast.
  exists (make_log_entry req now (tag k) cd).
  assert (Hvl : last (logs (fst (get_callback_logs logs_req
                  (snd (handler float_of_str format k req now callback_logs)))))
                = Some (make_log_entry req now (tag k) cd)).
  { rewrite Hview, last_last_n by lia. exact Hlast. }
  split; [exact Hvl|]. split; [exact Hlast|]. split; [reflexivity|].
  split; [by rewrite Hresp|].
  assert (Hret : returned_logs (fst (get_callback_logs logs_req
                   (snd (handler float_of_str format k req now callback_logs))))
                 = List.length (logs (fst (get_callback_logs logs_req
                   (snd (handler float_of_str format k req now callback_logs)))))).
  { reflexivity. }
  split; [|split; [exact Hret | reflexivity]].
  rewrite Hret. split; [|exact Hmax].
  destruct (logs _); [discriminate Hvl | cbn [List.length]; lia].
Qed.

Lemma accepted_callback_listed_witness :
  let req := json_request (PDict (gst_payload "SUCCESS" (PList []))) in
  let r := handler (fun _ => None) (fun _ => "") GstReturn req sample_oracle [] in
  let view := fst (get_callback_logs (logs_request (Some "abc")) (snd r)) in
  exists record,
    last (logs view) = Some record
    /\ last (snd r) = Some record
    /\ endpoint record = tag GstReturn
    /\ fst (fst r) !! "requestId" = Some (PStr (requestId record))
    /\ (1 <= returned_logs view <= 50)%nat
    /\ returned_logs view = List.length (logs view)
    /\ total_callbacks view = List.length (snd r).
Proof.
  apply (accepted_callback_listed (fun _ => None) (fun _ => "") GstReturn
           (json_request (PDict (gst_payload "SUCCESS" (PList [])))) sample_oracle []
           (logs_request (Some "abc"))).
  - reflexivity.
  - vm_compute. discriminate.
Defined.
